(** * Embedding fetcher, user-skills cache and manual pipeline trigger

    A shallow embedding of [src/lib/ai/embeddings.ts] (the functions
    [generateEmbedding], [generateUserSkillsEmbedding] and
    [clearUserSkillsCache]) and of the [handleTrigger] callback of the
    [ManualPipelineTrigger] component, together with the properties the
    specification states about them.

    The asynchronous code is sequential ([await] at every step), so it is
    modelled in a state-and-exception monad.  The state holds what the outside
    can observe of a run: the ordered trace of network requests, timer waits
    and preference queries, and the module-level cache.  What the outside
    answers (HTTP responses, query replies) is an oracle indexed by the number
    of the call.  [console.log] and [console.error] have no influence on
    control flow and are left out. *)

From Stdlib Require Import ZArith List String Ascii Bool Lia DecimalString.
Import ListNotations.

Local Open Scope string_scope.
Local Open Scope Z_scope.

(** ** JavaScript values that come out of [JSON.parse] *)

Module Js.

(** The host: how numbers behave where the code looks at them (truthiness,
    the literal [0], conversion to a string in a template literal), and the
    wording of the two [TypeError]s the engine can raise here: reading a
    property of [null], and converting to a string an object that has no
    callable [toString]. *)
Class Host (num : Type) : Type := {
  num_zero : num;
  num_falsy : num -> bool;
  num_to_string : num -> string;
  null_read_message : string -> string;
  to_primitive_message : string
}.

#[warnings="-register-all"]
Inductive json (num : Type) : Type :=
| JNull
| JBool (b : bool)
| JNum (n : num)
| JStr (s : string)
| JArr (items : list (json num))
| JObj (fields : list (string * json num)).

Arguments JNull {num}.
Arguments JBool {num} b.
Arguments JNum {num} n.
Arguments JStr {num} s.
Arguments JArr {num} items.
Arguments JObj {num} fields.

(** A thrown value.  The first seven constructors are the [new Error(...)]
    of [embeddings.ts], one per throw site; [JsError] is any other [Error]
    instance (what [fetch], [response.text()], [response.json()] or the
    engine throw), [JsNonError] a thrown value that is not an [Error]. *)
Inductive Exn : Type :=
| ApiKeyNotSet
| ApiReturned (status : Z) (errorText : string)
| InvalidResponseFormat
| EmbeddingNotArray
| UnexpectedDimensions (got : nat)
| AllRetriesFailed
| PreferencesNotSet
| JsError (message : string)
| JsNonError.

Definition show_Z (z : Z) : string := NilZero.string_of_int (Z.to_int z).
Definition show_nat (n : nat) : string := NilZero.string_of_uint (Nat.to_uint n).

(** [error.message]; [None] when the thrown value is not an [Error]. *)
Definition message (e : Exn) : option string :=
  match e with
  | ApiKeyNotSet => Some "JINA_API_KEY environment variable is not set"
  | ApiReturned status errorText =>
      Some ("Jina AI API returned " ++ show_Z status ++ ": " ++ errorText)
  | InvalidResponseFormat => Some "Invalid response format from Jina AI"
  | EmbeddingNotArray => Some "Embedding is not an array"
  | UnexpectedDimensions got =>
      Some ("Expected 768 dimensions, got " ++ show_nat got)
  | AllRetriesFailed => Some "Failed to generate embedding after all retries"
  | PreferencesNotSet =>
      Some "User preferences not set. Please configure your skills in the database."
  | JsError m => Some m
  | JsNonError => None
  end.

Section Values.
Context {num : Type} `{Host num}.

(** Truthiness of a parsed value ([!v] is [negb (truthy v)]). *)
Definition truthy (v : json num) : bool :=
  match v with
  | JNull => false
  | JBool b => b
  | JNum n => negb (num_falsy n)
  | JStr s => negb (String.eqb s "")
  | JArr _ => true
  | JObj _ => true
  end.

(** Truthiness of the result of a property read, [None] being [undefined]. *)
Definition truthy_opt (v : option (json num)) : bool :=
  match v with
  | Some j => truthy j
  | None => false
  end.

Fixpoint lookup_field (k : string) (fields : list (string * json num))
  : option (json num) :=
  match fields with
  | [] => None
  | (k', v) :: rest => if String.eqb k k' then Some v else lookup_field k rest
  end.

(** [v.k] for a property name [k] that no prototype defines ([data],
    [embedding], [scraped], [jobsScraped], [processed], [success], [error]):
    a [TypeError] on [null], the own property on an object, [undefined] on
    every other value. *)
Definition get (v : json num) (k : string) : Exn + option (json num) :=
  match v with
  | JNull => inl (JsError (null_read_message k))
  | JObj fields => inr (lookup_field k fields)
  | _ => inr None
  end.

(** [v?.k] where [v] is itself the result of a property read: [undefined]
    when [v] is [undefined] or [null]. *)
Definition get_optional (v : option (json num)) (k : string)
  : option (json num) :=
  match v with
  | None => None
  | Some JNull => None
  | Some (JObj fields) => lookup_field k fields
  | Some _ => None
  end.

Definition isArray (v : option (json num)) : bool :=
  match v with
  | Some (JArr _) => true
  | _ => false
  end.

(** [v[0]] for [v] an array. *)
Definition first_item (v : option (json num)) : option (json num) :=
  match v with
  | Some (JArr items) => hd_error items
  | _ => None
  end.

(** Conversion to a string, as a template literal does it.  An array is its
    items joined by commas, [null] items giving the empty string.  A parsed
    object inherits [Object.prototype.toString] unless the document gave it
    a [toString] member of its own, which is never callable: the conversion
    then throws a [TypeError]. *)
Fixpoint to_string (v : json num) : Exn + string :=
  match v with
  | JNull => inr "null"
  | JBool true => inr "true"
  | JBool false => inr "false"
  | JNum n => inr (num_to_string n)
  | JStr s => inr s
  | JArr items =>
      (fix join (l : list (json num)) : Exn + string :=
         match l with
         | [] => inr ""
         | x :: rest =>
             match match x with JNull => inr "" | _ => to_string x end with
             | inl e => inl e
             | inr s =>
                 match rest with
                 | [] => inr s
                 | _ :: _ =>
                     match join rest with
                     | inl e => inl e
                     | inr t => inr (s ++ "," ++ t)
                     end
                 end
             end
         end) items
  | JObj fields =>
      match lookup_field "toString" fields with
      | Some _ => inl (JsError to_primitive_message)
      | None => inr "[object Object]"
      end
  end.

(** [v || d] *)
Definition or_else (v : option (json num)) (d : json num) : json num :=
  match v with
  | Some j => if truthy j then j else d
  | None => d
  end.

(** What the fetch API hands back: a [Response] with its status and its
    body, which [text()] reads as a string and [json()] parses; either can
    reject.  [ok] is the fetch standard's: a status in the range 200-299. *)
Record Response : Type := {
  status : Z;
  text : Exn + string;
  json_body : Exn + json num
}.

Definition ok (r : Response) : bool :=
  (200 <=? status r) && (status r <=? 299).

Inductive FetchOutcome : Type :=
| Rejected (e : Exn)
| Resolved (r : Response).

End Values.

Arguments Response num : clear implicits.
Arguments FetchOutcome num : clear implicits.

(** Integers as the numbers of the host, with the wording V8 uses for the
    [TypeError]; used to run the model on concrete inputs. *)
#[export] Instance Z_Host : Host Z := {|
  num_zero := 0;
  num_falsy := fun n => Z.eqb n 0;
  num_to_string := show_Z;
  null_read_message := fun k =>
    "Cannot read properties of null (reading '" ++ k ++ "')";
  to_primitive_message := "Cannot convert object to primitive value"
|}.

End Js.

(** ** [src/lib/ai/embeddings.ts] *)

Module Embeddings.
Import Js.

(** The specification's taxonomy of failures (its section 7), read onto the
    throw sites.  The code has no error classes of its own: everything it
    throws is a plain [Error], told apart by its message. *)
Inductive ErrorClass : Type :=
| ConfigError
| ProviderError
| TransientNetworkError.

Definition spec_error_class (e : Exn) : ErrorClass :=
  match e with
  | ApiKeyNotSet | PreferencesNotSet => ConfigError
  | ApiReturned _ _ | InvalidResponseFormat | EmbeddingNotArray
  | UnexpectedDimensions _ | AllRetriesFailed => ProviderError
  | JsError _ | JsNonError => TransientNetworkError
  end.

(** The request [generateEmbedding] sends. *)
Record Request : Type := {
  url : string;
  method : string;
  content_type : string;
  authorization : string;
  model : string;
  task : string;
  dimensions : Z;
  input : list string
}.

(** Modelled from the spec: the type of the row that
    [select('skills').single()] yields is declared by the Supabase client
    ([@/lib/supabase/admin]), which is not among the sources.  The
    specification gives it as a single-row lookup returning a [skills] field,
    an ordered sequence of strings. *)
Record Prefs : Type := { skills : list string }.

(** The reply of the preference store as the code destructures it: [data]
    and [error], either of which can be null. *)
Record PrefsReply : Type := {
  data : option Prefs;
  error : option string
}.

Inductive Event : Type :=
| Fetched (req : Request)
| Slept (ms : Z)
| Selected.

Fixpoint fetch_count (tr : list Event) : nat :=
  match tr with
  | [] => 0%nat
  | Fetched _ :: rest => S (fetch_count rest)
  | _ :: rest => fetch_count rest
  end.

Fixpoint select_count (tr : list Event) : nat :=
  match tr with
  | [] => 0%nat
  | Selected :: rest => S (select_count rest)
  | _ :: rest => select_count rest
  end.

(** How a piece of code ends: normally with a value, or by throwing. *)
Inductive Completion (A : Type) : Type :=
| Normal (a : A)
| Thrown (e : Exn).

Arguments Normal {A} a.
Arguments Thrown {A} e.

Section Model.
Context {num : Type} `{Host num}.

(** The outside: the value of [process.env.JINA_API_KEY] when the module was
    loaded, the outcome of the n-th [fetch] and the reply to the n-th
    preference query of the process (both counted from 0). *)
Record World : Type := {
  JINA_API_KEY : option string;
  net : nat -> FetchOutcome num;
  store : nat -> PrefsReply
}.

(** The process: what it has done so far, oldest event first, and the
    module variable [cachedUserSkillsEmbedding]. *)
Record State : Type := {
  trace : list Event;
  cachedUserSkillsEmbedding : option (list (json num))
}.

Definition M (A : Type) : Type := State -> Completion A * State.

Definition ret {A} (a : A) : M A := fun s => (Normal a, s).

Definition throw {A} (e : Exn) : M A := fun s => (Thrown e, s).

Definition bind {A B} (m : M A) (k : A -> M B) : M B :=
  fun s =>
    match m s with
    | (Normal a, s') => k a s'
    | (Thrown e, s') => (Thrown e, s')
    end.

(** [try { m } catch (error) { h error }] *)
Definition try_catch {A} (m : M A) (h : Exn -> M A) : M A :=
  fun s =>
    match m s with
    | (Normal a, s') => (Normal a, s')
    | (Thrown e, s') => h e s'
    end.

(** [await] of a promise that is already settled one way or the other. *)
Definition settle {A} (r : Exn + A) : M A :=
  match r with
  | inl e => throw e
  | inr a => ret a
  end.

(** The state after some more events, the cache as it was. *)
Definition extend (s : State) (evs : list Event) : State :=
  {| trace := trace s ++ evs;
     cachedUserSkillsEmbedding := cachedUserSkillsEmbedding s |}.

Definition emit (ev : Event) : M unit :=
  fun s => (Normal tt, extend s [ev]).

Notation "x <- m ;; k" := (bind m (fun x => k))
  (at level 100, m at next level, right associativity).
Notation "m ;;; k" := (bind m (fun _ => k))
  (at level 100, right associativity).

(** [await new Promise(r => setTimeout(r, ms))] *)
Definition sleep (ms : Z) : M unit := emit (Slept ms).

Variable W : World.

(** [await fetch(url, init)]: the request goes out, and the outside decides
    whether the promise resolves with a response or rejects. *)
Definition fetch (req : Request) : M (Response num) :=
  fun s =>
    match emit (Fetched req) s with
    | (_, s') =>
        match net W (fetch_count (trace s)) with
        | Rejected e => (Thrown e, s')
        | Resolved r => (Normal r, s')
        end
    end.

(** [!JINA_API_KEY]: the variable is undefined or the empty string. *)
Definition key_missing (k : option string) : bool :=
  match k with
  | None => true
  | Some v => String.eqb v ""
  end.

Definition bearer (k : option string) : string :=
  "Bearer " ++ match k with Some v => v | None => "undefined" end.

Definition embedding_request (text : string) : Request := {|
  url := "https://api.jina.ai/v1/embeddings";
  method := "POST";
  content_type := "application/json";
  authorization := bearer (JINA_API_KEY W);
  model := "jina-embeddings-v3";
  task := "text-matching";
  dimensions := 768;
  input := [text]
|}.

Definition maxRetries : Z := 3.

(** Lines 64-82: from the parsed body to the vector.  [result.data[0]] is
    [undefined] only where the test of line 64 holds anyway (no array, or an
    empty one). *)
Definition extract_embedding (result : json num) : Exn + list (json num) :=
  match get result "data" with
  | inl e => inl e
  | inr d =>
      match first_item d with
      | Some item =>
          if negb (truthy_opt d) || negb (isArray d) || negb (truthy item)
          then inl InvalidResponseFormat
          else
            match get item "embedding" with
            | inl e => inl e
            | inr (Some (JArr embedding)) =>
                if negb (Nat.eqb (List.length embedding) 768)
                then inl (UnexpectedDimensions (List.length embedding))
                else inr embedding
            | inr _ => inl EmbeddingNotArray
            end
      | None => inl InvalidResponseFormat
      end
  end.

(** How one pass through the loop body ends when nothing is thrown out of
    it: the function returns, or the loop goes to its next iteration
    ([continue], or the end of the [catch] block). *)
Inductive Flow : Type :=
| Returns (embedding : list (json num))
| NextAttempt.

(** The [try] block, lines 20-83. *)
Definition try_block (text : string) (attempt : Z) : M Flow :=
  response <- fetch (embedding_request text) ;;
  if negb (ok response) then
    errorText <- settle (Js.text response) ;;
    if (status response =? 429) && (attempt <? maxRetries) then
      (sleep (2 ^ attempt * 5000) ;;; ret NextAttempt)
    else if (status response >=? 500) && (attempt <? maxRetries) then
      (sleep 5000 ;;; ret NextAttempt)
    else throw (ApiReturned (status response) errorText)
  else
    result <- settle (json_body response) ;;
    embedding <- settle (extract_embedding result) ;;
    ret (Returns embedding).

(** The [catch] block, lines 84-96. *)
Definition catch_block (attempt : Z) (error : Exn) : M Flow :=
  if attempt =? maxRetries then throw error
  else (sleep (2 ^ attempt * 2000) ;;; ret NextAttempt).

(** The loop body for one value of [attempt]. *)
Definition iteration (text : string) (attempt : Z) : M Flow :=
  try_catch (try_block text attempt) (catch_block attempt).

(** The values [attempt] takes in
    [for (let attempt = 1; attempt <= maxRetries; attempt++)]. *)
Definition attempt_values : list Z :=
  map Z.of_nat (seq 1 (Z.to_nat maxRetries)).

(** How the [for] statement ends: with a [return] from inside it, or by its
    condition becoming false. *)
Inductive LoopEnd : Type :=
| Returned (embedding : list (json num))
| Exhausted.

Fixpoint for_loop (text : string) (attempts : list Z) : M LoopEnd :=
  match attempts with
  | [] => ret Exhausted
  | attempt :: rest =>
      flow <- iteration text attempt ;;
      match flow with
      | Returns embedding => ret (Returned embedding)
      | NextAttempt => for_loop text rest
      end
  end.

Definition generateEmbedding (text : string) : M (list (json num)) :=
  if key_missing (JINA_API_KEY W) then throw ApiKeyNotSet
  else
    loop_end <- for_loop text attempt_values ;;
    match loop_end with
    | Returned embedding => ret embedding
    | Exhausted => throw AllRetriesFailed
    end.

(** [await supabaseAdmin.from('user_preferences').select('skills').single()] *)
Definition select_skills : M PrefsReply :=
  fun s =>
    match emit Selected s with
    | (_, s') => (Normal (store W (select_count (trace s))), s')
    end.

Definition set_cache (v : option (list (json num))) : M unit :=
  fun s => (Normal tt, {| trace := trace s; cachedUserSkillsEmbedding := v |}).

Definition generateUserSkillsEmbedding : M (list (json num)) :=
  fun s =>
    match cachedUserSkillsEmbedding s with
    | Some cached => ret cached s
    | None =>
        (reply <- select_skills ;;
         match error reply, data reply with
         | None, Some prefs =>
             if negb (Nat.eqb (List.length (skills prefs)) 0) then
               let skillsText := String.concat ", " (skills prefs) in
               embedding <- generateEmbedding skillsText ;;
               set_cache (Some embedding) ;;;
               ret embedding
             else throw PreferencesNotSet
         | _, _ => throw PreferencesNotSet
         end) s
    end.

Definition clearUserSkillsCache : M unit := set_cache None.

(** *** Vocabulary of the specification *)

(** The field of the success body the specification calls the expected
    vector field, [{ data: [ { embedding: ... } ] }], when the body has it. *)
Definition vector_field (result : json num) : option (json num) :=
  match result with
  | JObj fields =>
      match lookup_field "data" fields with
      | Some (JArr (JObj item :: _)) => lookup_field "embedding" item
      | _ => None
      end
  | _ => None
  end.

(** The outside answers a request with status [st] and a body that reads as
    the text [body]. *)
Definition answers_with_status (o : FetchOutcome num) (st : Z) (body : string)
  : Prop :=
  exists r, o = Resolved r /\ status r = st /\ Js.text r = inr body.

(** The outside answers a request with a success status and a body whose
    vector field is the list [v] of exactly 768 elements. *)
Definition answers_with_vector (o : FetchOutcome num) (v : list (json num))
  : Prop :=
  exists r result,
    o = Resolved r /\ ok r = true /\ json_body r = inr result
    /\ vector_field result = Some (JArr v) /\ List.length v = 768%nat.

(** The outside answers a request with a success status and the parsed
    body [result]. *)
Definition answers_with_body (o : FetchOutcome num) (result : json num)
  : Prop :=
  exists r, o = Resolved r /\ ok r = true /\ json_body r = inr result.

(** *** Measures of a run *)

(** The time a trace spends in timers, in ms. *)
Fixpoint total_wait (tr : list Event) : Z :=
  match tr with
  | [] => 0
  | Slept ms :: rest => ms + total_wait rest
  | _ :: rest => total_wait rest
  end.

(** A request, then for each wait of [ws] that wait and the request again. *)
Fixpoint run_trace (req : Event) (ws : list Z) : list Event :=
  match ws with
  | [] => [req]
  | w :: rest => req :: Slept w :: run_trace req rest
  end.

(** The delays the loop body can pass to [setTimeout] on one attempt
    (lines 44, 53 and 93). *)
Definition backoffs (attempt : Z) : list Z :=
  [2 ^ attempt * 5000; 5000; 2 ^ attempt * 2000].

(** No wait, a wait after the first attempt, or one after the first and
    one after the second. *)
Definition possible_waits (ws : list Z) : Prop :=
  ws = []
  \/ (exists w1, ws = [w1] /\ In w1 (backoffs 1))
  \/ (exists w1 w2, ws = [w1; w2] /\ In w1 (backoffs 1) /\ In w2 (backoffs 2)).

(** The cache is empty or holds a vector of 768 elements. *)
Definition cache_dimension_ok (s : State) : bool :=
  match cachedUserSkillsEmbedding s with
  | Some v => Nat.eqb (List.length v) 768
  | None => true
  end.

End Model.

Arguments World num : clear implicits.
Arguments State num : clear implicits.
Arguments M num A : clear implicits.

End Embeddings.

(** ** The [handleTrigger] callback of [ManualPipelineTrigger] *)

Module PipelineTrigger.
Import Js.

Record Request : Type := {
  url : string;
  method : string;
  headers : list (string * string)
}.

(** The value given to [setResult]. *)
Record Result : Type := {
  success : bool;
  message : string
}.

(** The two pieces of component state. *)
Record State : Type := {
  isLoading : bool;
  result : option Result
}.

Section Model.
Context {num : Type} `{Host num}.

(** [...(cronSecret && { 'Authorization': `Bearer ${cronSecret}` })] spreads
    nothing when the secret is undefined or empty. *)
Definition trigger_request (cronSecret : option string) : Request := {|
  url := "/api/cron/run-pipeline";
  method := "POST";
  headers :=
    ("Content-Type", "application/json") ::
    match cronSecret with
    | Some secret =>
        if String.eqb secret "" then [] else [("Authorization", "Bearer " ++ secret)]
    | None => []
    end
|}.

Definition and_then {A B} (r : Exn + A) (k : A -> Exn + B) : Exn + B :=
  match r with
  | inl e => inl e
  | inr a => k a
  end.

Notation "x <- r ;; k" := (and_then r (fun x => k))
  (at level 100, r at next level, right associativity).

(** The [try] block, lines 18-44, as the value it gives to [setResult], or
    what it throws. *)
Definition try_block (outcome : FetchOutcome num) : Exn + Result :=
  match outcome with
  | Rejected e => inl e
  | Resolved response =>
      data <- json_body response ;;
      if ok response then
        scraped <- get data "scraped" ;;
        let jobsScraped := or_else (get_optional scraped "jobsScraped") (JNum num_zero) in
        processed <- get data "processed" ;;
        let jobsProcessed := or_else (get_optional processed "success") (JNum num_zero) in
        shown_scraped <- to_string jobsScraped ;;
        shown_processed <- to_string jobsProcessed ;;
        inr {| success := true;
               message := "✅ Success! " ++ shown_scraped ++ " jobs scraped, "
                          ++ shown_processed ++ " processed" |}
      else
        error <- get data "error" ;;
        shown <- to_string (or_else error (JStr "Failed to run pipeline")) ;;
        inr {| success := false; message := "❌ Error: " ++ shown |}
  end.

(** The [catch] block, lines 45-49. *)
Definition catch_block (error : Exn) : Result :=
  {| success := false;
     message := "❌ Error: " ++
                match Js.message error with
                | Some m => m
                | None => "Network error"
                end |}.

(** One run of the callback: the request it sends, the state after
    [setIsLoading(true); setResult(null)], and the state after the [finally]
    block. *)
Record Run : Type := {
  sent : Request;
  started : State;
  finished : State
}.

Definition handleTrigger (cronSecret : option string)
    (outcome : FetchOutcome num) (st : State) : Run :=
  let shown :=
    match try_block outcome with
    | inr r => r
    | inl e => catch_block e
    end in
  {| sent := trigger_request cronSecret;
     started := {| isLoading := true; result := None |};
     finished := {| isLoading := false; result := Some shown |} |}.

(** What the component shows for a state (the JSX of lines 85-131): the
    button, disabled and relabelled while loading; the hint under it while
    loading; the box with the message of the last result, styled by its
    [success]. *)
Record View : Type := {
  button_disabled : bool;
  button_style : string;
  button_label : string;
  hint : option string;
  result_box : option (string * string)
}.

Definition render (st : State) : View := {|
  button_disabled := isLoading st;
  button_style :=
    if isLoading st then "bg-gray-400 cursor-not-allowed text-white"
    else "bg-gradient-to-r from-blue-600 to-indigo-600 hover:shadow-lg text-white";
  button_label :=
    if isLoading st then "Running Pipeline..." else "Run Pipeline Now";
  hint :=
    if isLoading st then Some "⏱️ This may take 2-5 minutes. Please wait..."
    else None;
  result_box :=
    match result st with
    | Some r =>
        Some (if success r then "bg-green-50 border-green-200 text-green-800"
              else "bg-red-50 border-red-200 text-red-800",
              message r)
    | None => None
    end
|}.

End Model.

End PipelineTrigger.

(** ** Concrete runs

    Worlds over the integer host, used to run the model. *)

Module Runs.
Import Js Embeddings.

Definition vector768 : list (json Z) := repeat (JNum 1) 768.

Definition other768 : list (json Z) := repeat (JNum 2) 768.

(** The success body [{ data: [ { embedding: v } ] }]. *)
Definition body_with (v : list (json Z)) : json Z :=
  JObj [("data", JArr [JObj [("embedding", JArr v)]])].

Definition success (v : list (json Z)) : FetchOutcome Z :=
  Resolved {| status := 200; text := inr "{...}"; json_body := inr (body_with v) |}.

(** An error answer: a status and a plain-text body, which is no JSON. *)
Definition failure (st : Z) (body : string) : FetchOutcome Z :=
  Resolved {| status := st; text := inr body;
              json_body := inl (JsError "Unexpected token") |}.

Definition with_skills (l : list string) : PrefsReply :=
  {| data := Some {| skills := l |}; error := None |}.

Definition no_row : PrefsReply :=
  {| data := None; error := Some "PGRST116" |}.

(** A world from the list of the answers to the first requests; later
    requests are refused by the network. *)
Definition world (key : option string) (answers : list (FetchOutcome Z))
    (replies : list PrefsReply) : World Z :=
  {| JINA_API_KEY := key;
     net := fun n => nth n answers (Rejected (JsError "fetch failed"));
     store := fun n => nth n replies no_row |}.

Definition fresh : State Z :=
  {| trace := []; cachedUserSkillsEmbedding := None |}.

Definition key : option string := Some "jina_0123".

(** Two rate-limited answers, then a vector. *)
Definition limited_twice : World Z :=
  world key [failure 429 "slow down"; failure 429 "slow down"; success vector768] [].

(** Three server errors. *)
Definition down : World Z :=
  world key [failure 500 "oops 1"; failure 500 "oops 2"; failure 500 "oops 3"] [].

(** A client error, then a vector. *)
Definition refused_once : World Z :=
  world key [failure 400 "bad request"; success vector768] [].

(** A success answer with a vector of two elements, then a full vector. *)
Definition short_once : World Z :=
  world key [success [JNum 1; JNum 2]; success vector768] [].

(** The network refusing every request. *)
Definition offline : World Z := world key [] [].

Definition no_key : World Z := world None [success vector768] [].

(** Skills on record, changed between the two queries. *)
Definition skilled : World Z :=
  world key [success vector768; success other768]
        [with_skills ["rocq"; "typescript"]; with_skills ["ocaml"]].

Definition no_skills : World Z :=
  world key [success vector768] [with_skills []].

Definition request (w : World Z) (text : string) : Event :=
  Fetched (embedding_request w text).

(** A pipeline answer that gives one of the two counts only. *)
Definition pipeline_done : FetchOutcome Z :=
  Resolved {| status := 200; text := inr "{...}";
              json_body := inr (JObj [("scraped", JObj [("jobsScraped", JNum 12)])]) |}.

Definition pipeline_refused : FetchOutcome Z :=
  Resolved {| status := 401; text := inr "{...}";
              json_body := inr (JObj [("error", JStr "Unauthorized")]) |}.

Definition idle : PipelineTrigger.State :=
  {| PipelineTrigger.isLoading := false; PipelineTrigger.result := None |}.

(** A success status with the body [null], three times. *)
Definition null_body : FetchOutcome Z :=
  Resolved {| status := 200; text := inr "null"; json_body := inr JNull |}.

Definition null_bodies : World Z :=
  world key [null_body; null_body; null_body] [].

(** A rate-limited answer whose body cannot be read, then a vector. *)
Definition cut_off : FetchOutcome Z :=
  Resolved {| status := 429; text := inl (JsError "terminated");
              json_body := inl (JsError "terminated") |}.

Definition cut_off_once : World Z := world key [cut_off; success vector768] [].

(** A server error whose body cannot be read, three times. *)
Definition cut_503 : FetchOutcome Z :=
  Resolved {| status := 503; text := inl (JsError "terminated");
              json_body := inl (JsError "terminated") |}.

Definition cut_down : World Z := world key [cut_503; cut_503; cut_503] [].

(** A pipeline answer with one count falsy and the other not. *)
Definition pipeline_partial : FetchOutcome Z :=
  Resolved {| status := 200; text := inr "{...}";
              json_body :=
                inr (JObj [("scraped", JObj [("jobsScraped", JNum 0)]);
                           ("processed", JObj [("success", JNum 5)])]) |}.

(** Skills on record, but no key. *)
Definition skilled_no_key : World Z :=
  world None [success vector768] [with_skills ["rocq"]].

(** The provider down, skills on record. *)
Definition skilled_down : World Z :=
  world key [failure 500 "oops 1"; failure 500 "oops 2"; failure 500 "oops 3"]
        [with_skills ["rocq"]; with_skills ["rocq"]].

(** A pipeline answer whose counts are there but falsy. *)
Definition pipeline_nothing : FetchOutcome Z :=
  Resolved {| status := 200; text := inr "{...}";
              json_body :=
                inr (JObj [("scraped", JObj [("jobsScraped", JNum 0)]);
                           ("processed", JObj [("success", JNull)])]) |}.

(** A pipeline failure that gives no reason. *)
Definition pipeline_broken : FetchOutcome Z :=
  Resolved {| status := 500; text := inr "{}"; json_body := inr (JObj []) |}.

End Runs.

(** * Properties of the embedding fetcher *)

Section EmbeddingFetcher.
Import Js Embeddings.
Context {num : Type} `{Host num}.
Variable W : World num.

Lemma extend_nil (s : State num) : extend s [] = s.
Proof. destruct s; unfold extend; simpl; now rewrite app_nil_r. Qed.

Lemma extend_extend (s : State num) (a b : list Event) :
  extend (extend s a) b = extend s (a ++ b).
Proof. unfold extend; simpl; now rewrite app_assoc. Qed.

Lemma fetch_count_app (a b : list Event) :
  fetch_count (a ++ b) = (fetch_count a + fetch_count b)%nat.
Proof.
  induction a as [|ev a IH]; simpl; [reflexivity|].
  destruct ev; simpl; rewrite IH; reflexivity.
Qed.

Lemma select_count_app (a b : list Event) :
  select_count (a ++ b) = (select_count a + select_count b)%nat.
Proof.
  induction a as [|ev a IH]; simpl; [reflexivity|].
  destruct ev; simpl; rewrite IH; reflexivity.
Qed.

Lemma fetch_count_extend (s : State num) (evs : list Event) :
  fetch_count (trace (extend s evs))
  = (fetch_count (trace s) + fetch_count evs)%nat.
Proof. apply fetch_count_app. Qed.

(** One [fetch] whose outcome is known. *)
Lemma fetch_rejected req s e :
  net W (fetch_count (trace s)) = Rejected e ->
  fetch W req s = (Thrown e, extend s [Fetched req]).
Proof. intros E. unfold fetch, emit. now rewrite E. Qed.

Lemma fetch_resolved req s r :
  net W (fetch_count (trace s)) = Resolved r ->
  fetch W req s = (Normal r, extend s [Fetched req]).
Proof. intros E. unfold fetch, emit. now rewrite E. Qed.

(** The [catch] block on the last attempt and before it. *)
Lemma catch_block_final error (s : State num) :
  catch_block maxRetries error s = (Thrown error, s).
Proof. reflexivity. Qed.

Lemma catch_block_retry attempt error (s : State num) :
  attempt <> maxRetries ->
  catch_block attempt error s
  = (Normal NextAttempt, extend s [Slept (2 ^ attempt * 2000)]).
Proof.
  intros Hne. unfold catch_block.
  destruct (Z.eqb_spec attempt maxRetries) as [E|_]; [contradiction|].
  reflexivity.
Qed.

(** One pass through the loop body, by what the request meets. *)
Lemma iteration_rejected text attempt s e :
  net W (fetch_count (trace s)) = Rejected e ->
  iteration W text attempt s
  = catch_block attempt e (extend s [Fetched (embedding_request W text)]).
Proof.
  intros E. unfold iteration, try_catch, try_block, bind.
  now rewrite (fetch_rejected _ _ _ E).
Qed.

Lemma iteration_not_ok text attempt s r body :
  net W (fetch_count (trace s)) = Resolved r ->
  ok r = false ->
  Js.text r = inr body ->
  iteration W text attempt s
  = let s1 := extend s [Fetched (embedding_request W text)] in
    if (status r =? 429) && (attempt <? maxRetries) then
      (Normal NextAttempt, extend s1 [Slept (2 ^ attempt * 5000)])
    else if (status r >=? 500) && (attempt <? maxRetries) then
      (Normal NextAttempt, extend s1 [Slept 5000])
    else catch_block attempt (ApiReturned (status r) body) s1.
Proof.
  intros E Hok Hbody. unfold iteration, try_catch, try_block, bind.
  rewrite (fetch_resolved _ _ _ E), Hok, Hbody. simpl.
  destruct ((status r =? 429) && (attempt <? maxRetries)); [reflexivity|].
  destruct ((status r >=? 500) && (attempt <? maxRetries)); reflexivity.
Qed.

Lemma iteration_not_ok_unread text attempt s r e :
  net W (fetch_count (trace s)) = Resolved r ->
  ok r = false ->
  Js.text r = inl e ->
  iteration W text attempt s
  = catch_block attempt e (extend s [Fetched (embedding_request W text)]).
Proof.
  intros E Hok Hbody. unfold iteration, try_catch, try_block, bind.
  now rewrite (fetch_resolved _ _ _ E), Hok, Hbody.
Qed.

Lemma iteration_ok text attempt s r result :
  net W (fetch_count (trace s)) = Resolved r ->
  ok r = true ->
  json_body r = inr result ->
  iteration W text attempt s
  = let s1 := extend s [Fetched (embedding_request W text)] in
    match extract_embedding result with
    | inr embedding => (Normal (Returns embedding), s1)
    | inl e => catch_block attempt e s1
    end.
Proof.
  intros E Hok Hbody. unfold iteration, try_catch, try_block, bind.
  rewrite (fetch_resolved _ _ _ E), Hok, Hbody. simpl.
  destruct (extract_embedding result); reflexivity.
Qed.

Lemma iteration_ok_unparsed text attempt s r e :
  net W (fetch_count (trace s)) = Resolved r ->
  ok r = true ->
  json_body r = inl e ->
  iteration W text attempt s
  = catch_block attempt e (extend s [Fetched (embedding_request W text)]).
Proof.
  intros E Hok Hbody. unfold iteration, try_catch, try_block, bind.
  now rewrite (fetch_resolved _ _ _ E), Hok, Hbody.
Qed.

(** The loop, one iteration unrolled. *)
Lemma for_loop_cons text attempt rest s :
  for_loop W text (attempt :: rest) s
  = match iteration W text attempt s with
    | (Normal (Returns embedding), s') => (Normal (Returned embedding), s')
    | (Normal NextAttempt, s') => for_loop W text rest s'
    | (Thrown e, s') => (Thrown e, s')
    end.
Proof.
  simpl. unfold bind.
  destruct (iteration W text attempt s) as [[[v|]|e] s']; reflexivity.
Qed.

Lemma attempt_values_eq : attempt_values = [1; 2; 3].
Proof. reflexivity. Qed.

(** With a credential, the function is its loop followed by line 99. *)
Lemma generateEmbedding_configured text s :
  key_missing (JINA_API_KEY W) = false ->
  generateEmbedding W text s
  = match for_loop W text [1; 2; 3] s with
    | (Normal (Returned embedding), s') => (Normal embedding, s')
    | (Normal Exhausted, s') => (Thrown AllRetriesFailed, s')
    | (Thrown e, s') => (Thrown e, s')
    end.
Proof.
  intros Hkey. unfold generateEmbedding. rewrite Hkey, attempt_values_eq.
  unfold bind.
  destruct (for_loop W text [1; 2; 3] s) as [[[v|]|e] s']; reflexivity.
Qed.

(** On the last attempt no path leads to the next iteration. *)
Lemma iteration_final_settles text (s s' : State num) :
  iteration W text maxRetries s <> (Normal NextAttempt, s').
Proof.
  destruct (net W (fetch_count (trace s))) as [e|r] eqn:E.
  - rewrite (iteration_rejected _ _ _ _ E), catch_block_final. discriminate.
  - destruct (ok r) eqn:Hok.
    + destruct (json_body r) as [e|result] eqn:Hbody.
      * rewrite (iteration_ok_unparsed _ _ _ _ _ E Hok Hbody), catch_block_final.
        discriminate.
      * rewrite (iteration_ok _ _ _ _ _ E Hok Hbody). simpl.
        destruct (extract_embedding result); [|discriminate].
        rewrite catch_block_final. discriminate.
    + destruct (Js.text r) as [e|body] eqn:Hbody.
      * rewrite (iteration_not_ok_unread _ _ _ _ _ E Hok Hbody), catch_block_final.
        discriminate.
      * rewrite (iteration_not_ok _ _ _ _ _ E Hok Hbody). simpl.
        rewrite !andb_false_r, catch_block_final. discriminate.
Qed.

(** A loop whose last value of [attempt] is [maxRetries] never runs off its
    end. *)
Lemma for_loop_never_exhausted text (attempts : list Z) (s s' : State num) :
  for_loop W text (attempts ++ [maxRetries]) s <> (Normal Exhausted, s').
Proof.
  revert s. induction attempts as [|a attempts IH]; intros s.
  - simpl app. rewrite for_loop_cons.
    destruct (iteration W text maxRetries s) as [[[v|]|e] s1] eqn:E;
      try discriminate.
    exfalso. exact (iteration_final_settles _ _ _ E).
  - simpl app. rewrite for_loop_cons.
    destruct (iteration W text a s) as [[[v|]|e] s1]; try discriminate.
    apply IH.
Qed.

(** The next request is the one after the request just made. *)
Lemma fetch_count_after_attempt (s : State num) req ms :
  fetch_count (trace (extend s [Fetched req; Slept ms]))
  = S (fetch_count (trace s)).
Proof. rewrite fetch_count_extend. simpl. apply Nat.add_1_r. Qed.

Lemma status_not_ok (r : Response num) :
  status r = 429 \/ 500 <= status r -> ok r = false.
Proof.
  intros Hst. unfold ok. apply andb_false_iff. right. apply Z.leb_gt. lia.
Qed.

(** What the code extracts is the vector field of the body, and it extracts
    it exactly when that field is a list of 768 elements. *)
Lemma extract_embedding_vector (result : json num) v :
  extract_embedding result = inr v
  <-> vector_field result = Some (JArr v) /\ List.length v = 768%nat.
Proof.
  unfold extract_embedding, vector_field.
  destruct result as [| | | | |fields]; simpl;
    try (split; [discriminate|intros [? _]; discriminate]).
  destruct (lookup_field "data" fields) as [[| | | |items|]|]; simpl;
    try (split; [discriminate|intros [? _]; discriminate]).
  destruct items as [|item rest]; simpl;
    try (split; [discriminate|intros [? _]; discriminate]).
  destruct item as [|[]| | | |item]; simpl;
    try (split; [discriminate|intros [? _]; discriminate]);
    try (destruct (negb _); split; [discriminate|intros [? _]; discriminate
                                    |discriminate|intros [? _]; discriminate]).
  destruct (lookup_field "embedding" item) as [[| | | |embedding|]|]; simpl;
    try (split; [discriminate|intros [? _]; discriminate]).
  destruct (Nat.eqb_spec (List.length embedding) 768) as [Hlen|Hlen]; simpl.
  - split.
    + intros [= <-]. split; [reflexivity|exact Hlen].
    + intros [[= <-] _]. reflexivity.
  - split; [discriminate|].
    intros [[= <-] Hv]. contradiction.
Qed.

Lemma extract_embedding_bad (result : json num) :
  (forall v, vector_field result = Some (JArr v) -> List.length v <> 768%nat) ->
  exists e, extract_embedding result = inl e.
Proof.
  intros Hbad. destruct (extract_embedding result) as [e|v] eqn:Hex.
  - exists e. reflexivity.
  - apply extract_embedding_vector in Hex. destruct Hex as [Hf Hl].
    exfalso. exact (Hbad v Hf Hl).
Qed.

(** Apart from the [TypeError] on a [null] body, a body that does not give
    a vector gives one of the module's own errors. *)
Lemma extract_embedding_error (result : json num) e :
  extract_embedding result = inl e ->
  result <> JNull ->
  spec_error_class e = ProviderError.
Proof.
  unfold extract_embedding.
  destruct result as [| | | | |fields]; simpl;
    try (intros [= <-] _; reflexivity).
  - intros _ Hnull. contradiction.
  - intros Hex _. revert Hex.
    destruct (first_item (lookup_field "data" fields)) as [item|];
      [|intros [= <-]; reflexivity].
    destruct item as [| | | | |item]; simpl; rewrite ?orb_true_r;
      try (intros [= <-]; reflexivity);
      try (destruct (_ || _); intros [= <-]; reflexivity).
    destruct (_ || _); [intros [= <-]; reflexivity|].
    destruct (lookup_field "embedding" item) as [[| | | |embedding|]|];
      try (intros [= <-]; reflexivity).
    destruct (negb _); [intros [= <-]; reflexivity|discriminate].
Qed.

(** The loop from one attempt to the next, by what the request meets. *)
Lemma loop_after_rejection text attempt rest (s : State num) e :
  net W (fetch_count (trace s)) = Rejected e ->
  for_loop W text (attempt :: rest) s
  = let req := Fetched (embedding_request W text) in
    if attempt =? maxRetries then (Thrown e, extend s [req])
    else for_loop W text rest (extend s [req; Slept (2 ^ attempt * 2000)]).
Proof.
  intros E. rewrite for_loop_cons, (iteration_rejected _ _ _ _ E). simpl.
  destruct (Z.eqb_spec attempt maxRetries) as [->|Hne].
  - now rewrite catch_block_final.
  - now rewrite (catch_block_retry _ _ _ Hne), extend_extend.
Qed.

Lemma loop_after_429 text attempt rest (s : State num) body :
  answers_with_status (net W (fetch_count (trace s))) 429 body ->
  attempt < maxRetries ->
  for_loop W text (attempt :: rest) s
  = for_loop W text rest
      (extend s [Fetched (embedding_request W text); Slept (2 ^ attempt * 5000)]).
Proof.
  intros (r & E & Hst & Hbody) Hlt.
  rewrite for_loop_cons.
  rewrite (iteration_not_ok _ _ _ _ _ E (status_not_ok r (or_introl Hst)) Hbody).
  simpl. rewrite Hst, (proj2 (Z.ltb_lt _ _) Hlt). simpl.
  now rewrite extend_extend.
Qed.

Lemma loop_after_server_error text attempt rest (s : State num) st body :
  answers_with_status (net W (fetch_count (trace s))) st body ->
  500 <= st ->
  attempt < maxRetries ->
  for_loop W text (attempt :: rest) s
  = for_loop W text rest
      (extend s [Fetched (embedding_request W text); Slept 5000]).
Proof.
  intros (r & E & Hst & Hbody) Hge Hlt. subst st.
  rewrite for_loop_cons.
  rewrite (iteration_not_ok _ _ _ _ _ E (status_not_ok r (or_intror Hge)) Hbody).
  simpl. rewrite (proj2 (Z.ltb_lt _ _) Hlt), andb_true_r.
  destruct (Z.eqb_spec (status r) 429) as [E429|_]; [lia|].
  replace (status r >=? 500) with true
    by (symmetry; rewrite Z.geb_leb; now apply Z.leb_le).
  simpl. now rewrite extend_extend.
Qed.

Lemma loop_after_other_status text attempt rest (s : State num) st body :
  answers_with_status (net W (fetch_count (trace s))) st body ->
  ~ (200 <= st <= 299) ->
  st <> 429 ->
  st < 500 ->
  attempt < maxRetries ->
  for_loop W text (attempt :: rest) s
  = for_loop W text rest
      (extend s [Fetched (embedding_request W text); Slept (2 ^ attempt * 2000)]).
Proof.
  intros (r & E & Hst & Hbody) Hnok Hne Hlt500 Hlt. subst st.
  assert (Hok : ok r = false).
  { unfold ok. apply andb_false_iff.
    destruct (Z.leb_spec 200 (status r)); [right|left; reflexivity].
    apply Z.leb_gt. lia. }
  rewrite for_loop_cons, (iteration_not_ok _ _ _ _ _ E Hok Hbody). simpl.
  destruct (Z.eqb_spec (status r) 429) as [E429|_]; [contradiction|].
  replace (status r >=? 500) with false
    by (symmetry; rewrite Z.geb_leb; apply Z.leb_gt; lia).
  simpl. rewrite catch_block_retry by lia. now rewrite extend_extend.
Qed.

Lemma loop_final_status text rest (s : State num) st body :
  answers_with_status (net W (fetch_count (trace s))) st body ->
  ~ (200 <= st <= 299) ->
  for_loop W text (maxRetries :: rest) s
  = (Thrown (ApiReturned st body),
     extend s [Fetched (embedding_request W text)]).
Proof.
  intros (r & E & Hst & Hbody) Hnok. subst st.
  assert (Hok : ok r = false).
  { unfold ok. apply andb_false_iff.
    destruct (Z.leb_spec 200 (status r)); [right|left; reflexivity].
    apply Z.leb_gt. lia. }
  rewrite for_loop_cons, (iteration_not_ok _ _ _ _ _ E Hok Hbody). simpl.
  now rewrite !andb_false_r, catch_block_final.
Qed.

Lemma loop_returns_vector text attempt rest (s : State num) v :
  answers_with_vector (net W (fetch_count (trace s))) v ->
  for_loop W text (attempt :: rest) s
  = (Normal (Returned v), extend s [Fetched (embedding_request W text)]).
Proof.
  intros (r & result & E & Hok & Hbody & Hfield & Hlen).
  rewrite for_loop_cons, (iteration_ok _ _ _ _ _ E Hok Hbody). simpl.
  now rewrite (proj2 (extract_embedding_vector result v) (conj Hfield Hlen)).
Qed.

Lemma loop_after_bad_body text attempt rest (s : State num) result e :
  answers_with_body (net W (fetch_count (trace s))) result ->
  extract_embedding result = inl e ->
  for_loop W text (attempt :: rest) s
  = let req := Fetched (embedding_request W text) in
    if attempt =? maxRetries then (Thrown e, extend s [req])
    else for_loop W text rest (extend s [req; Slept (2 ^ attempt * 2000)]).
Proof.
  intros (r & E & Hok & Hbody) Hex.
  rewrite for_loop_cons, (iteration_ok _ _ _ _ _ E Hok Hbody). simpl.
  rewrite Hex.
  destruct (Z.eqb_spec attempt maxRetries) as [->|Hne].
  - now rewrite catch_block_final.
  - now rewrite (catch_block_retry _ _ _ Hne), extend_extend.
Qed.

(** (C7) Without a credential ([JINA_API_KEY] undefined or empty), for every
    input text [generateEmbedding] throws at once the error of line 14, a
    configuration error, and leaves the process as it was: no request went
    out, no wait happened, no attempt was made. *)
Theorem C7_missing_credential_fails_before_any_request text (s : State num) :
  key_missing (JINA_API_KEY W) = true ->
  generateEmbedding W text s = (Thrown ApiKeyNotSet, s)
  /\ spec_error_class ApiKeyNotSet = ConfigError
  /\ fetch_count (trace (snd (generateEmbedding W text s)))
     = fetch_count (trace s).
Proof.
  intros Hkey. unfold generateEmbedding. rewrite Hkey.
  repeat split; reflexivity.
Qed.

(** (C10) The throw after the loop (line 99) is unreachable.  With a
    credential configured, every run of [generateEmbedding] ends inside the
    loop, by its [return] or by a throw, and never by the loop running out;
    the last attempt never asks for another iteration, and an attempt that
    does is one before the third. *)
Theorem C10_fallback_after_loop_unreachable text (s : State num) :
  key_missing (JINA_API_KEY W) = false ->
  (exists s',
      (exists embedding,
          for_loop W text attempt_values s = (Normal (Returned embedding), s')
          /\ generateEmbedding W text s = (Normal embedding, s'))
      \/ (exists e,
             for_loop W text attempt_values s = (Thrown e, s')
             /\ generateEmbedding W text s = (Thrown e, s')))
  /\ (forall s0 s', for_loop W text attempt_values s0 <> (Normal Exhausted, s'))
  /\ (forall s0 s', iteration W text maxRetries s0 <> (Normal NextAttempt, s'))
  /\ (forall attempt s0 s',
         In attempt attempt_values ->
         iteration W text attempt s0 = (Normal NextAttempt, s') ->
         attempt < maxRetries).
Proof.
  intros Hkey.
  assert (Hloop : forall s0 s',
             for_loop W text attempt_values s0 <> (Normal Exhausted, s')).
  { intros s0 s'. exact (for_loop_never_exhausted text [1; 2] s0 s'). }
  split; [|split; [exact Hloop|split]].
  - rewrite (generateEmbedding_configured _ _ Hkey), <- attempt_values_eq.
    destruct (for_loop W text attempt_values s) as [[[v|]|e] s1] eqn:E.
    + exists s1. left. exists v. split; reflexivity.
    + exfalso. exact (Hloop _ _ E).
    + exists s1. right. exists e. split; reflexivity.
  - intros s0 s'. apply iteration_final_settles.
  - intros attempt s0 s' Hin Hnext.
    rewrite attempt_values_eq in Hin. simpl in Hin.
    destruct Hin as [<-|[<-|[<-|[]]]]; unfold maxRetries; try lia.
    exfalso. exact (iteration_final_settles _ _ _ Hnext).
Qed.

(** Decides the test [attempt === maxRetries] for a known attempt. *)
Ltac pick_branch :=
  cbv zeta;
  change (1 =? maxRetries) with false;
  change (2 =? maxRetries) with false;
  change (3 =? maxRetries) with true;
  cbv iota.

(** The handler never makes the function return. *)
Lemma catch_block_no_return attempt error (s s' : State num) v :
  catch_block attempt error s <> (Normal (Returns v), s').
Proof.
  unfold catch_block. destruct (attempt =? maxRetries); discriminate.
Qed.

(** A pass that returns a vector got it as the vector field of the answer
    to its request. *)
Lemma iteration_returns text attempt (s s' : State num) v :
  iteration W text attempt s = (Normal (Returns v), s') ->
  answers_with_vector (net W (fetch_count (trace s))) v
  /\ s' = extend s [Fetched (embedding_request W text)].
Proof.
  destruct (net W (fetch_count (trace s))) as [e|r] eqn:E.
  - rewrite (iteration_rejected _ _ _ _ E). intros Hc.
    exfalso. exact (catch_block_no_return _ _ _ _ _ Hc).
  - destruct (ok r) eqn:Hok.
    + destruct (json_body r) as [e|result] eqn:Hbody.
      * rewrite (iteration_ok_unparsed _ _ _ _ _ E Hok Hbody). intros Hc.
        exfalso. exact (catch_block_no_return _ _ _ _ _ Hc).
      * rewrite (iteration_ok _ _ _ _ _ E Hok Hbody). cbv zeta.
        destruct (extract_embedding result) as [e|v'] eqn:Hex.
        -- intros Hc. exfalso. exact (catch_block_no_return _ _ _ _ _ Hc).
        -- intros [= <- <-]. split; [|reflexivity].
           apply extract_embedding_vector in Hex. destruct Hex as [Hf Hl].
           exists r, result. repeat split; assumption.
    + destruct (Js.text r) as [e|body] eqn:Hbody.
      * rewrite (iteration_not_ok_unread _ _ _ _ _ E Hok Hbody). intros Hc.
        exfalso. exact (catch_block_no_return _ _ _ _ _ Hc).
      * rewrite (iteration_not_ok _ _ _ _ _ E Hok Hbody). cbv zeta.
        destruct (_ && _); [discriminate|].
        destruct (_ && _); [discriminate|].
        intros Hc. exfalso. exact (catch_block_no_return _ _ _ _ _ Hc).
Qed.

Lemma for_loop_returns text attempts (s s' : State num) v :
  for_loop W text attempts s = (Normal (Returned v), s') ->
  exists s1,
    answers_with_vector (net W (fetch_count (trace s1))) v
    /\ s' = extend s1 [Fetched (embedding_request W text)].
Proof.
  revert s. induction attempts as [|a attempts IH]; intros s.
  - discriminate.
  - rewrite for_loop_cons.
    destruct (iteration W text a s) as [[[v'|]|e] s1] eqn:E.
    + intros [= <- <-]. exists s. exact (iteration_returns _ _ _ _ _ E).
    + apply IH.
    + discriminate.
Qed.

Lemma generateEmbedding_returns text (s s' : State num) v :
  generateEmbedding W text s = (Normal v, s') ->
  exists s1,
    answers_with_vector (net W (fetch_count (trace s1))) v
    /\ s' = extend s1 [Fetched (embedding_request W text)].
Proof.
  unfold generateEmbedding.
  destruct (key_missing (JINA_API_KEY W)); [discriminate|].
  unfold bind.
  destruct (for_loop W text attempt_values s) as [[[v'|]|e] s1] eqn:E;
    try discriminate.
  intros [= <- <-]. exact (for_loop_returns _ _ _ _ _ E).
Qed.

(** With a credential, an answer that carries a vector ends the call at
    once. *)
Lemma generateEmbedding_vector text (s : State num) v :
  key_missing (JINA_API_KEY W) = false ->
  answers_with_vector (net W (fetch_count (trace s))) v ->
  generateEmbedding W text s
  = (Normal v, extend s [Fetched (embedding_request W text)]).
Proof.
  intros Hkey Ev. rewrite (generateEmbedding_configured _ _ Hkey).
  now rewrite (loop_returns_vector _ _ _ _ _ Ev).
Qed.

(** The run reaches its third attempt in state [s]: what comes out of the
    loop from there comes out of the function. *)
Lemma generateEmbedding_from_third_attempt text (s0 s s' : State num) e :
  key_missing (JINA_API_KEY W) = false ->
  for_loop W text attempt_values s0 = for_loop W text [maxRetries] s ->
  for_loop W text [maxRetries] s = (Thrown e, s') ->
  generateEmbedding W text s0 = (Thrown e, s').
Proof.
  intros Hkey Hreach Hthird.
  rewrite (generateEmbedding_configured _ _ Hkey), <- attempt_values_eq.
  now rewrite Hreach, Hthird.
Qed.

(** A non-success answer whose body cannot be read: the rejection of the
    read is what the handler gets, whatever the status. *)
Lemma loop_after_unread text attempt rest (s : State num) r e :
  net W (fetch_count (trace s)) = Resolved r ->
  ok r = false ->
  Js.text r = inl e ->
  for_loop W text (attempt :: rest) s
  = let req := Fetched (embedding_request W text) in
    if attempt =? maxRetries then (Thrown e, extend s [req])
    else for_loop W text rest (extend s [req; Slept (2 ^ attempt * 2000)]).
Proof.
  intros E Hok Hbody.
  rewrite for_loop_cons, (iteration_not_ok_unread _ _ _ _ _ E Hok Hbody).
  cbv zeta. destruct (Z.eqb_spec attempt maxRetries) as [->|Hne].
  - now rewrite catch_block_final.
  - now rewrite (catch_block_retry _ _ _ Hne), extend_extend.
Qed.

(** (C6) When the request of an attempt throws (the [fetch] promise rejects)
    and attempts remain, the loop waits exactly [2^attempt * 2000] ms and
    goes to the next attempt; on the third attempt the thrown value itself
    leaves the loop and the function, unchanged.  With three rejections in a
    row the function makes three requests, waits 4000 ms and 8000 ms, and
    throws the third value; the first two are dropped.  The same handler
    takes whatever the [try] block throws. *)
Theorem C6_exception_backoff_and_final_rethrow text (s : State num) e :
  net W (fetch_count (trace s)) = Rejected e ->
  let req := Fetched (embedding_request W text) in
  (forall attempt rest,
      1 <= attempt < maxRetries ->
      for_loop W text (attempt :: rest) s
      = for_loop W text rest (extend s [req; Slept (2 ^ attempt * 2000)]))
  /\ (forall rest,
         for_loop W text (maxRetries :: rest) s = (Thrown e, extend s [req]))
  /\ (forall s0,
         key_missing (JINA_API_KEY W) = false ->
         for_loop W text attempt_values s0 = for_loop W text [maxRetries] s ->
         generateEmbedding W text s0 = (Thrown e, extend s [req]))
  /\ (forall e2 e3,
         key_missing (JINA_API_KEY W) = false ->
         net W (1 + fetch_count (trace s)) = Rejected e2 ->
         net W (2 + fetch_count (trace s)) = Rejected e3 ->
         generateEmbedding W text s
         = (Thrown e3, extend s [req; Slept 4000; req; Slept 8000; req]))
  /\ (forall attempt (s0 s1 : State num) err,
         1 <= attempt <= maxRetries ->
         try_block W text attempt s0 = (Thrown err, s1) ->
         iteration W text attempt s0
         = if attempt =? maxRetries then (Thrown err, s1)
           else (Normal NextAttempt, extend s1 [Slept (2 ^ attempt * 2000)])).
Proof.
  intros E req.
  assert (Hlast : forall rest,
             for_loop W text (maxRetries :: rest) s = (Thrown e, extend s [req])).
  { intros rest. now rewrite (loop_after_rejection _ _ _ _ _ E). }
  split; [|split; [|split; [|split]]].
  - intros attempt rest [_ Hlt].
    rewrite (loop_after_rejection _ _ _ _ _ E). cbv zeta.
    destruct (Z.eqb_spec attempt maxRetries); [lia|reflexivity].
  - exact Hlast.
  - intros s0 Hkey Hreach.
    exact (generateEmbedding_from_third_attempt _ _ _ _ _ Hkey Hreach (Hlast [])).
  - intros e2 e3 Hkey E2 E3.
    rewrite (generateEmbedding_configured _ _ Hkey).
    rewrite (loop_after_rejection _ _ _ _ _ E). pick_branch.
    rewrite loop_after_rejection with (e := e2)
      by (now rewrite fetch_count_after_attempt).
    pick_branch.
    rewrite loop_after_rejection with (e := e3)
      by (now rewrite !fetch_count_after_attempt).
    pick_branch. now rewrite !extend_extend.
  - intros attempt s0 s1 err _ Htry. unfold iteration, try_catch.
    rewrite Htry. unfold catch_block.
    destruct (attempt =? maxRetries); reflexivity.
Qed.

(** (C4, amended) When an attempt is answered with status 429 and a body
    that can be read, and attempts remain, the loop waits exactly
    [2^attempt * 5000] ms and goes to the next attempt.  When the first two
    answers are such and the third is a success carrying a vector, the
    function makes exactly three requests, waits 10000 ms after the first and
    20000 ms after the second, and returns the vector of the third answer.
    When the body of a 429 answer cannot be read, the rejection of
    [response.text()] (line 39, before the test of line 43) goes to the
    handler instead, and the wait is [2^attempt * 2000] ms. *)
Theorem C4_rate_limit_backoff text (s : State num) body :
  answers_with_status (net W (fetch_count (trace s))) 429 body ->
  let req := Fetched (embedding_request W text) in
  (forall attempt rest,
      1 <= attempt < maxRetries ->
      for_loop W text (attempt :: rest) s
      = for_loop W text rest (extend s [req; Slept (2 ^ attempt * 5000)]))
  /\ (forall body2 v,
         key_missing (JINA_API_KEY W) = false ->
         answers_with_status (net W (1 + fetch_count (trace s))) 429 body2 ->
         answers_with_vector (net W (2 + fetch_count (trace s))) v ->
         generateEmbedding W text s
         = (Normal v, extend s [req; Slept 10000; req; Slept 20000; req]))
  /\ (forall (s0 : State num) r e,
         net W (fetch_count (trace s0)) = Resolved r ->
         status r = 429 ->
         Js.text r = inl e ->
         forall attempt rest,
           1 <= attempt < maxRetries ->
           for_loop W text (attempt :: rest) s0
           = for_loop W text rest (extend s0 [req; Slept (2 ^ attempt * 2000)])).
Proof.
  intros E req. split; [|split].
  3:{ intros s0 r e E0 Hst Hbody attempt rest [_ Hlt].
      rewrite (loop_after_unread _ _ _ _ _ _ E0
                 (status_not_ok r (or_introl Hst)) Hbody).
      cbv zeta. destruct (Z.eqb_spec attempt maxRetries); [lia|reflexivity]. }
  - intros attempt rest [_ Hlt]. exact (loop_after_429 _ _ _ _ _ E Hlt).
  - intros body2 v Hkey E2 E3.
    rewrite (generateEmbedding_configured _ _ Hkey).
    rewrite (loop_after_429 _ 1 _ _ _ E) by (unfold maxRetries; lia).
    rewrite loop_after_429 with (body := body2);
      [|now rewrite fetch_count_after_attempt|unfold maxRetries; lia].
    rewrite loop_returns_vector with (v := v)
      by (now rewrite !fetch_count_after_attempt).
    now rewrite !extend_extend.
Qed.

(** (C5, amended) When an attempt is answered with a status of 500 or more
    and a body that can be read, and attempts remain, the loop waits a fixed
    5000 ms and goes to the next attempt; on the third attempt the function
    throws the error of line 57 with that answer's status and body.  With
    three such answers in a row (three times status 500 among them) the
    function makes exactly three requests, waits 5000 ms twice, and throws a
    provider error carrying the status and body of the third answer.  When
    the body of such an answer cannot be read, the rejection of
    [response.text()] (line 39, before the test of line 51) goes to the
    handler instead: the wait is [2^attempt * 2000] ms, and on the third
    attempt the rejection itself is thrown. *)
Theorem C5_server_error_retry_then_fail text (s : State num) st body :
  answers_with_status (net W (fetch_count (trace s))) st body ->
  500 <= st ->
  let req := Fetched (embedding_request W text) in
  (forall attempt rest,
      1 <= attempt < maxRetries ->
      for_loop W text (attempt :: rest) s
      = for_loop W text rest (extend s [req; Slept 5000]))
  /\ (forall rest,
         for_loop W text (maxRetries :: rest) s
         = (Thrown (ApiReturned st body), extend s [req]))
  /\ (forall st2 body2 st3 body3,
         key_missing (JINA_API_KEY W) = false ->
         answers_with_status (net W (1 + fetch_count (trace s))) st2 body2 ->
         500 <= st2 ->
         answers_with_status (net W (2 + fetch_count (trace s))) st3 body3 ->
         500 <= st3 ->
         generateEmbedding W text s
         = (Thrown (ApiReturned st3 body3),
            extend s [req; Slept 5000; req; Slept 5000; req])
         /\ spec_error_class (ApiReturned st3 body3) = ProviderError)
  /\ (forall (s0 : State num) r e,
         net W (fetch_count (trace s0)) = Resolved r ->
         500 <= status r ->
         Js.text r = inl e ->
         (forall attempt rest,
             1 <= attempt < maxRetries ->
             for_loop W text (attempt :: rest) s0
             = for_loop W text rest
                 (extend s0 [req; Slept (2 ^ attempt * 2000)]))
         /\ (forall rest,
                for_loop W text (maxRetries :: rest) s0
                = (Thrown e, extend s0 [req]))).
Proof.
  intros E Hge req. split; [|split; [|split]].
  4:{ intros s0 r e E0 Hst Hbody.
      assert (Hloop := fun attempt rest =>
                loop_after_unread text attempt rest _ _ _ E0
                  (status_not_ok r (or_intror Hst)) Hbody).
      split.
      - intros attempt rest [_ Hlt]. rewrite Hloop. cbv zeta.
        destruct (Z.eqb_spec attempt maxRetries); [lia|reflexivity].
      - intros rest. now rewrite Hloop. }
  - intros attempt rest [_ Hlt].
    exact (loop_after_server_error _ _ _ _ _ _ E Hge Hlt).
  - intros rest. apply loop_final_status; [exact E|lia].
  - intros st2 body2 st3 body3 Hkey E2 Hge2 E3 Hge3.
    split; [|reflexivity].
    rewrite (generateEmbedding_configured _ _ Hkey).
    rewrite (loop_after_server_error _ 1 _ _ _ _ E Hge)
      by (unfold maxRetries; lia).
    rewrite loop_after_server_error with (st := st2) (body := body2);
      [|now rewrite fetch_count_after_attempt|assumption|unfold maxRetries; lia].
    rewrite loop_final_status with (st := st3) (body := body3);
      [|now rewrite !fetch_count_after_attempt|lia].
    now rewrite !extend_extend.
Qed.

(** (C1, amended) A non-success status ends the call only on the third
    attempt: there, whatever the status, the function throws the error of
    line 57, a provider error carrying the status and the body of that
    answer, and makes no further request.  On an earlier attempt a status
    that is neither 429 nor 500 or more does not end the call: the error is
    caught by the handler of the attempt, which waits [2^attempt * 2000] ms,
    and the next attempt is made; when that one is answered with a vector,
    the function returns it, and when all three attempts are answered with
    such a status, the function throws the error of the third answer after
    waits of 4000 and 8000 ms. *)
Theorem C1_status_error_ends_call_on_last_attempt text (s : State num) st body :
  answers_with_status (net W (fetch_count (trace s))) st body ->
  ~ (200 <= st <= 299) ->
  let req := Fetched (embedding_request W text) in
  (forall rest,
      for_loop W text (maxRetries :: rest) s
      = (Thrown (ApiReturned st body), extend s [req]))
  /\ (forall s0,
         key_missing (JINA_API_KEY W) = false ->
         for_loop W text attempt_values s0 = for_loop W text [maxRetries] s ->
         generateEmbedding W text s0
         = (Thrown (ApiReturned st body), extend s [req]))
  /\ spec_error_class (ApiReturned st body) = ProviderError
  /\ (forall attempt rest,
         1 <= attempt < maxRetries ->
         st <> 429 ->
         st < 500 ->
         for_loop W text (attempt :: rest) s
         = for_loop W text rest (extend s [req; Slept (2 ^ attempt * 2000)]))
  /\ (forall v,
         key_missing (JINA_API_KEY W) = false ->
         st <> 429 ->
         st < 500 ->
         answers_with_vector (net W (1 + fetch_count (trace s))) v ->
         generateEmbedding W text s
         = (Normal v, extend s [req; Slept 4000; req]))
  /\ (forall st2 body2 st3 body3,
         key_missing (JINA_API_KEY W) = false ->
         st <> 429 ->
         st < 500 ->
         answers_with_status (net W (1 + fetch_count (trace s))) st2 body2 ->
         ~ (200 <= st2 <= 299) ->
         st2 <> 429 ->
         st2 < 500 ->
         answers_with_status (net W (2 + fetch_count (trace s))) st3 body3 ->
         ~ (200 <= st3 <= 299) ->
         generateEmbedding W text s
         = (Thrown (ApiReturned st3 body3),
            extend s [req; Slept 4000; req; Slept 8000; req])).
Proof.
  intros E Hnok req.
  assert (Hlast : forall rest,
             for_loop W text (maxRetries :: rest) s
             = (Thrown (ApiReturned st body), extend s [req])).
  { intros rest. exact (loop_final_status _ _ _ _ _ E Hnok). }
  split; [exact Hlast|split; [|split; [reflexivity|split; [|split]]]].
  - intros s0 Hkey Hreach.
    exact (generateEmbedding_from_third_attempt _ _ _ _ _ Hkey Hreach (Hlast [])).
  - intros attempt rest [_ Hlt] H429 H500.
    exact (loop_after_other_status _ _ _ _ _ _ E Hnok H429 H500 Hlt).
  - intros v Hkey H429 H500 Ev.
    rewrite (generateEmbedding_configured _ _ Hkey).
    rewrite (loop_after_other_status _ 1 _ _ _ _ E Hnok H429 H500)
      by (unfold maxRetries; lia).
    rewrite loop_returns_vector with (v := v)
      by (now rewrite fetch_count_after_attempt).
    now rewrite extend_extend.
  - intros st2 body2 st3 body3 Hkey H429 H500 E2 Hnok2 H429' H500' E3 Hnok3.
    rewrite (generateEmbedding_configured _ _ Hkey).
    rewrite (loop_after_other_status _ 1 _ _ _ _ E Hnok H429 H500)
      by (unfold maxRetries; lia).
    rewrite loop_after_other_status with (st := st2) (body := body2);
      [|now rewrite fetch_count_after_attempt|assumption..|unfold maxRetries; lia].
    rewrite loop_final_status with (st := st3) (body := body3);
      [|now rewrite !fetch_count_after_attempt|assumption].
    now rewrite !extend_extend.
Qed.

(** (C2, amended) A success answer whose vector field is a list of exactly
    768 elements makes the function return that very list, whatever the
    attempt.  A success answer (its body not [null]) whose vector field is
    absent, not a list or not 768 long gives a provider error, which ends
    the call only on the third attempt; on an earlier attempt the handler
    catches it, waits [2^attempt * 2000] ms, and the next attempt is made
    (and its vector returned, when it is answered with one; three such
    answers in a row make the function throw the provider error of the
    third after waits of 4000 and 8000 ms).
    Every vector the function returns has exactly 768 elements and is the
    vector field of the answer to its last request. *)
Theorem C2_vector_returned_as_received text (s : State num) result :
  answers_with_body (net W (fetch_count (trace s))) result ->
  let req := Fetched (embedding_request W text) in
  (forall v,
      vector_field result = Some (JArr v) ->
      List.length v = 768%nat ->
      (forall attempt rest,
          for_loop W text (attempt :: rest) s
          = (Normal (Returned v), extend s [req]))
      /\ (key_missing (JINA_API_KEY W) = false ->
          generateEmbedding W text s = (Normal v, extend s [req])))
  /\ ((forall v, vector_field result = Some (JArr v) -> List.length v <> 768%nat) ->
      result <> JNull ->
      exists e,
        spec_error_class e = ProviderError
        /\ (forall rest,
               for_loop W text (maxRetries :: rest) s
               = (Thrown e, extend s [req]))
        /\ (forall attempt rest,
               1 <= attempt < maxRetries ->
               for_loop W text (attempt :: rest) s
               = for_loop W text rest
                   (extend s [req; Slept (2 ^ attempt * 2000)]))
        /\ (forall v,
               key_missing (JINA_API_KEY W) = false ->
               answers_with_vector (net W (1 + fetch_count (trace s))) v ->
               generateEmbedding W text s
               = (Normal v, extend s [req; Slept 4000; req]))
        /\ (forall result2 result3,
               key_missing (JINA_API_KEY W) = false ->
               answers_with_body (net W (1 + fetch_count (trace s))) result2 ->
               (forall v, vector_field result2 = Some (JArr v) ->
                          List.length v <> 768%nat) ->
               answers_with_body (net W (2 + fetch_count (trace s))) result3 ->
               (forall v, vector_field result3 = Some (JArr v) ->
                          List.length v <> 768%nat) ->
               result3 <> JNull ->
               exists e3,
                 spec_error_class e3 = ProviderError
                 /\ generateEmbedding W text s
                    = (Thrown e3,
                       extend s [req; Slept 4000; req; Slept 8000; req])))
  /\ (forall text0 (s0 s' : State num) v,
         generateEmbedding W text0 s0 = (Normal v, s') ->
         List.length v = 768%nat
         /\ exists s1,
             answers_with_vector (net W (fetch_count (trace s1))) v
             /\ s' = extend s1 [Fetched (embedding_request W text0)]).
Proof.
  intros E req. split; [|split].
  - intros v Hfield Hlen.
    assert (Ev : answers_with_vector (net W (fetch_count (trace s))) v).
    { destruct E as (r & E & Hok & Hbody). exists r, result.
      repeat split; assumption. }
    split.
    + intros attempt rest. exact (loop_returns_vector _ _ _ _ _ Ev).
    + intros Hkey. rewrite (generateEmbedding_configured _ _ Hkey).
      now rewrite (loop_returns_vector _ _ _ _ _ Ev).
  - intros Hbad Hnull.
    destruct (extract_embedding result) as [e|v] eqn:Hex.
    + exists e. split; [exact (extract_embedding_error _ _ Hex Hnull)|].
      split; [|split; [|split]].
      * intros rest. now rewrite (loop_after_bad_body _ _ _ _ _ _ E Hex).
      * intros attempt rest [_ Hlt].
        rewrite (loop_after_bad_body _ _ _ _ _ _ E Hex). cbv zeta.
        destruct (Z.eqb_spec attempt maxRetries); [lia|reflexivity].
      * intros v Hkey Ev.
        rewrite (generateEmbedding_configured _ _ Hkey).
        rewrite (loop_after_bad_body _ _ _ _ _ _ E Hex). pick_branch.
        rewrite loop_returns_vector with (v := v)
          by (now rewrite fetch_count_after_attempt).
        now rewrite extend_extend.
      * intros result2 result3 Hkey E2 Hbad2 E3 Hbad3 Hnull3.
        destruct (extract_embedding_bad _ Hbad2) as [e2 Hex2].
        destruct (extract_embedding_bad _ Hbad3) as [e3 Hex3].
        exists e3. split; [exact (extract_embedding_error _ _ Hex3 Hnull3)|].
        rewrite (generateEmbedding_configured _ _ Hkey).
        rewrite (loop_after_bad_body _ _ _ _ _ _ E Hex). pick_branch.
        rewrite loop_after_bad_body with (result := result2) (e := e2);
          [|now rewrite fetch_count_after_attempt|assumption].
        pick_branch.
        rewrite loop_after_bad_body with (result := result3) (e := e3);
          [|now rewrite !fetch_count_after_attempt|assumption].
        pick_branch. now rewrite !extend_extend.
    + apply extract_embedding_vector in Hex. destruct Hex as [Hf Hl].
      exfalso. exact (Hbad v Hf Hl).
  - intros text0 s0 s' v Hret.
    destruct (generateEmbedding_returns _ _ _ _ Hret) as (s1 & Ev & Hs').
    split; [|exists s1; split; assumption].
    destruct Ev as (r & res & _ & _ & _ & _ & Hlen). exact Hlen.
Qed.

End EmbeddingFetcher.

(** * Properties of the user-skills accessor *)

Section UserSkillsCache.
Import Js Embeddings.
Context {num : Type} `{Host num}.
Variable W : World num.

(** A populated cache answers the call by itself. *)
Lemma cached_is_returned (s : State num) cached :
  cachedUserSkillsEmbedding s = Some cached ->
  generateUserSkillsEmbedding W s = (Normal cached, s).
Proof. intros Hc. unfold generateUserSkillsEmbedding. now rewrite Hc. Qed.

(** With an empty cache and usable preferences, the call is the preference
    query followed by [generateEmbedding] on the joined skills. *)
Lemma uncached_delegates (s : State num) prefs :
  cachedUserSkillsEmbedding s = None ->
  store W (select_count (trace s)) = {| data := Some prefs; error := None |} ->
  skills prefs <> [] ->
  generateUserSkillsEmbedding W s
  = match generateEmbedding W (String.concat ", " (skills prefs))
            (extend s [Selected]) with
    | (Normal embedding, s') =>
        (Normal embedding,
         {| trace := trace s'; cachedUserSkillsEmbedding := Some embedding |})
    | (Thrown e, s') => (Thrown e, s')
    end.
Proof.
  intros Hc Hstore Hskills. unfold generateUserSkillsEmbedding.
  rewrite Hc. unfold bind at 1. unfold select_skills, emit.
  rewrite Hstore. cbn [error data].
  destruct (skills prefs) as [|sk rest] eqn:Hsk; [contradiction|].
  cbn [List.length Nat.eqb negb]. unfold bind, set_cache, ret.
  destruct (generateEmbedding W _ _) as [[v|e] s']; reflexivity.
Qed.

(** Without usable preferences the call stops after the query. *)
Lemma uncached_without_prefs (s : State num) :
  cachedUserSkillsEmbedding s = None ->
  (error (store W (select_count (trace s))) <> None
   \/ data (store W (select_count (trace s))) = None
   \/ exists prefs,
        data (store W (select_count (trace s))) = Some prefs
        /\ skills prefs = []) ->
  generateUserSkillsEmbedding W s
  = (Thrown PreferencesNotSet, extend s [Selected]).
Proof.
  intros Hc Hbad. unfold generateUserSkillsEmbedding.
  rewrite Hc. unfold bind, select_skills, emit.
  destruct (store W (select_count (trace s))) as [d err]. cbn [error data] in *.
  destruct err as [err|]; [reflexivity|].
  destruct d as [prefs|]; [|reflexivity].
  destruct Hbad as [Hbad|[Hbad|(prefs' & [= <-] & Hsk)]];
    [contradiction|discriminate|].
  now rewrite Hsk.
Qed.

(** A call that returns has left its vector in the cache. *)
Lemma returned_is_cached (s s' : State num) v :
  generateUserSkillsEmbedding W s = (Normal v, s') ->
  cachedUserSkillsEmbedding s' = Some v.
Proof.
  destruct (cachedUserSkillsEmbedding s) as [cached|] eqn:Hc.
  - rewrite (cached_is_returned _ _ Hc). now intros [= <- <-].
  - destruct (store W (select_count (trace s))) as [d err] eqn:Hstore.
    destruct err as [err|].
    { rewrite uncached_without_prefs; [discriminate|exact Hc|].
      rewrite Hstore. left. discriminate. }
    destruct d as [prefs|].
    2:{ rewrite uncached_without_prefs; [discriminate|exact Hc|].
        rewrite Hstore. right. left. reflexivity. }
    destruct (skills prefs) as [|sk rest] eqn:Hsk.
    + rewrite uncached_without_prefs; [discriminate|exact Hc|].
      rewrite Hstore. right. right. exists prefs. split; [reflexivity|exact Hsk].
    + rewrite (uncached_delegates _ prefs Hc Hstore) by (rewrite Hsk; discriminate).
      destruct (generateEmbedding W _ _) as [[v'|e] s1]; [|discriminate].
      now intros [= <- <-].
Qed.

(** (C3) A populated cache is returned as it is, with no request and no
    preference query, whatever the preference store would say now; so a call
    that follows a call that returned gives the same vector and does
    nothing else.  Starting
    from an empty cache, with a credential, usable preferences and an answer
    that carries a vector, two calls in a row make exactly one request and
    both return that vector; after [clearUserSkillsCache] a further call
    queries the preferences again and makes a second request. *)
Theorem C3_cache_hit_until_reset (s : State num) prefs v :
  cachedUserSkillsEmbedding s = None ->
  key_missing (JINA_API_KEY W) = false ->
  store W (select_count (trace s)) = {| data := Some prefs; error := None |} ->
  skills prefs <> [] ->
  answers_with_vector (net W (fetch_count (trace s))) v ->
  let req := Fetched (embedding_request W (String.concat ", " (skills prefs))) in
  let s1 := {| trace := trace s ++ [Selected; req];
               cachedUserSkillsEmbedding := Some v |} in
  generateUserSkillsEmbedding W s = (Normal v, s1)
  /\ generateUserSkillsEmbedding W s1 = (Normal v, s1)
  /\ fetch_count (trace s1) = (1 + fetch_count (trace s))%nat
  /\ (forall (s2 : State num) cached,
         cachedUserSkillsEmbedding s2 = Some cached ->
         generateUserSkillsEmbedding W s2 = (Normal cached, s2))
  /\ (forall (s2 s3 : State num) returned,
         generateUserSkillsEmbedding W s2 = (Normal returned, s3) ->
         generateUserSkillsEmbedding W s3 = (Normal returned, s3))
  /\ clearUserSkillsCache s1
     = (Normal tt, {| trace := trace s1; cachedUserSkillsEmbedding := None |})
  /\ (forall prefs' v',
         store W (1 + select_count (trace s))
         = {| data := Some prefs'; error := None |} ->
         skills prefs' <> [] ->
         answers_with_vector (net W (1 + fetch_count (trace s))) v' ->
         let req' :=
           Fetched (embedding_request W (String.concat ", " (skills prefs'))) in
         let s3 := {| trace := trace s1 ++ [Selected; req'];
                      cachedUserSkillsEmbedding := Some v' |} in
         generateUserSkillsEmbedding W (snd (clearUserSkillsCache s1))
         = (Normal v', s3)
         /\ fetch_count (trace s3) = (2 + fetch_count (trace s))%nat).
Proof.
  intros Hc Hkey Hstore Hskills Ev req s1.
  assert (Hcount : fetch_count (trace s1) = (1 + fetch_count (trace s))%nat).
  { unfold s1. cbn [trace]. rewrite fetch_count_app. simpl. lia. }
  assert (Hselect : select_count (trace s1) = (1 + select_count (trace s))%nat).
  { unfold s1. cbn [trace]. rewrite select_count_app. simpl. lia. }
  split; [|split; [|split; [exact Hcount|split; [|split; [|split]]]]].
  - rewrite (uncached_delegates _ _ Hc Hstore Hskills).
    rewrite (generateEmbedding_vector W _ _ v Hkey)
      by (rewrite fetch_count_extend; simpl; now rewrite Nat.add_0_r).
    unfold extend, s1. cbn [trace]. now rewrite <- app_assoc.
  - now apply cached_is_returned.
  - intros s2 cached. apply cached_is_returned.
  - intros s2 s3 returned Hret.
    exact (cached_is_returned _ _ (returned_is_cached _ _ _ Hret)).
  - reflexivity.
  - intros prefs' v' Hstore' Hskills' Ev' req' s3.
    cbn [clearUserSkillsCache set_cache snd].
    set (s2 := {| trace := trace s1; cachedUserSkillsEmbedding := None |}).
    split.
    + rewrite (uncached_delegates s2 prefs' eq_refl)
        by (unfold s2; cbn [trace]; try rewrite Hselect; assumption).
      rewrite (generateEmbedding_vector W _ _ v' Hkey).
      * unfold extend, s2, s3. cbn [trace]. now rewrite <- app_assoc.
      * rewrite fetch_count_extend. unfold s2. cbn [trace].
        rewrite Hcount. simpl. now rewrite Nat.add_0_r.
    + unfold s3. cbn [trace]. rewrite fetch_count_app, Hcount. simpl. lia.
Qed.

(** (C8) When the preference record is missing (no row, or an error from the
    store) or its skills list is empty, [generateUserSkillsEmbedding], called
    with an empty cache, throws the error of line 119, a configuration
    error, after the query alone; and whatever the cache holds, the call
    makes no request. *)
Theorem C8_missing_preferences_fail_without_request (s : State num) :
  (error (store W (select_count (trace s))) <> None
   \/ data (store W (select_count (trace s))) = None
   \/ exists prefs,
        data (store W (select_count (trace s))) = Some prefs
        /\ skills prefs = []) ->
  (cachedUserSkillsEmbedding s = None ->
   generateUserSkillsEmbedding W s
   = (Thrown PreferencesNotSet, extend s [Selected]))
  /\ spec_error_class PreferencesNotSet = ConfigError
  /\ fetch_count (trace (snd (generateUserSkillsEmbedding W s)))
     = fetch_count (trace s).
Proof.
  intros Hbad. split; [|split; [reflexivity|]].
  - intros Hc. exact (uncached_without_prefs _ Hc Hbad).
  - destruct (cachedUserSkillsEmbedding s) as [cached|] eqn:Hc.
    + now rewrite (cached_is_returned _ _ Hc).
    + rewrite (uncached_without_prefs _ Hc Hbad). cbn [snd].
      rewrite fetch_count_extend. simpl. apply Nat.add_0_r.
Qed.

End UserSkillsCache.

(** * Properties of the pipeline trigger *)

Section TriggerControl.
Import Js PipelineTrigger.
Context {num : Type} `{Host num}.

(** Whatever the [try] block throws becomes the failure the handler shows. *)
Lemma handleTrigger_thrown secret (outcome : FetchOutcome num) st e :
  try_block outcome = inl e ->
  finished (handleTrigger secret outcome st)
  = {| isLoading := false; result := Some (catch_block e) |}.
Proof. intros Htry. unfold handleTrigger. now rewrite Htry. Qed.

Lemma handleTrigger_shown secret (outcome : FetchOutcome num) st r :
  try_block outcome = inr r ->
  finished (handleTrigger secret outcome st)
  = {| isLoading := false; result := Some r |}.
Proof. intros Htry. unfold handleTrigger. now rewrite Htry. Qed.

(** (C9) On a 2xx answer whose body parses the control reports success with
    the two counts [scraped.jobsScraped] and [processed.success], each taken
    as 0 when the field is absent.  A non-2xx answer gives a failure with one
    message, and so does every error thrown on the way (the request failing,
    the body not parsing, a [null] body, a count that cannot be shown). *)
Theorem C9_trigger_reports_counts_or_failure secret
    (outcome : FetchOutcome num) (st : State) :
  let final := finished (handleTrigger secret outcome st) in
  (forall r data scraped processed shown_scraped shown_processed,
      outcome = Resolved r ->
      ok r = true ->
      json_body r = inr data ->
      get data "scraped" = inr scraped ->
      get data "processed" = inr processed ->
      let jobsScraped :=
        or_else (get_optional scraped "jobsScraped") (JNum num_zero) in
      let jobsProcessed :=
        or_else (get_optional processed "success") (JNum num_zero) in
      to_string jobsScraped = inr shown_scraped ->
      to_string jobsProcessed = inr shown_processed ->
      final
      = {| isLoading := false;
           result :=
             Some {| success := true;
                     message := "✅ Success! " ++ shown_scraped
                                ++ " jobs scraped, " ++ shown_processed
                                ++ " processed" |} |}
      /\ (get_optional scraped "jobsScraped" = None ->
          jobsScraped = JNum num_zero /\ shown_scraped = num_to_string num_zero)
      /\ (get_optional processed "success" = None ->
          jobsProcessed = JNum num_zero
          /\ shown_processed = num_to_string num_zero))
  /\ (forall r,
         outcome = Resolved r ->
         ok r = false ->
         exists shown,
           final
           = {| isLoading := false;
                result := Some {| success := false;
                                  message := "❌ Error: " ++ shown |} |})
  /\ (forall e,
         try_block outcome = inl e ->
         final
         = {| isLoading := false;
              result :=
                Some {| success := false;
                        message := "❌ Error: " ++
                                   match Js.message e with
                                   | Some m => m
                                   | None => "Network error"
                                   end |} |})
  /\ (forall e, outcome = Rejected e -> try_block outcome = inl e)
  /\ (forall r e,
         outcome = Resolved r -> json_body r = inl e -> try_block outcome = inl e).
Proof.
  intros final. split; [|split; [|split; [|split]]].
  - intros r data scraped processed a b -> Hok Hbody Hs Hp js jp Ha Hb.
    split; [|split].
    + unfold final. apply handleTrigger_shown.
      unfold try_block, and_then. rewrite Hbody, Hok, Hs, Hp.
      fold js jp. now rewrite Ha, Hb.
    + intros Habs. unfold js in *. rewrite Habs in *. cbn [or_else] in *.
      split; [reflexivity|]. cbn [to_string] in Ha. congruence.
    + intros Habs. unfold jp in *. rewrite Habs in *. cbn [or_else] in *.
      split; [reflexivity|]. cbn [to_string] in Hb. congruence.
  - intros r -> Hok. unfold final.
    destruct (try_block (Resolved r)) as [e|res] eqn:Htry.
    + rewrite (handleTrigger_thrown _ _ _ _ Htry). eexists. reflexivity.
    + rewrite (handleTrigger_shown _ _ _ _ Htry).
      revert Htry. unfold try_block, and_then. rewrite Hok.
      destruct (json_body r) as [e|data]; [discriminate|].
      destruct (get data "error") as [e|err]; [discriminate|].
      destruct (to_string _) as [e|shown]; [discriminate|].
      intros [= <-]. eexists. reflexivity.
  - intros e Htry. unfold final. now rewrite (handleTrigger_thrown _ _ _ _ Htry).
  - intros e ->. reflexivity.
  - intros r e -> Hbody. unfold try_block, and_then. now rewrite Hbody.
Qed.

End TriggerControl.

(** * The theorems at concrete runs *)

Section ConcreteRuns.
Import Js Embeddings Runs.

(** Exhibits the answer the world gives to a request. *)
Ltac answer :=
  unfold answers_with_status, answers_with_vector, answers_with_body;
  repeat eexists; reflexivity.

(** Without a key, nothing goes out. *)
Lemma C7_witness :
  key_missing (JINA_API_KEY no_key) = true
  /\ generateEmbedding no_key "rocq, typescript" fresh
     = (Thrown ApiKeyNotSet, fresh).
Proof.
  split; [reflexivity|].
  exact (proj1 (C7_missing_credential_fails_before_any_request
                  no_key "rocq, typescript" fresh eq_refl)).
Defined.

(** With the network down, the loop ends by a throw, not by running out. *)
Lemma C10_witness :
  key_missing (JINA_API_KEY offline) = false
  /\ exists s',
      (exists embedding,
          for_loop offline "rocq" attempt_values fresh
          = (Normal (Returned embedding), s')
          /\ generateEmbedding offline "rocq" fresh = (Normal embedding, s'))
      \/ (exists e,
             for_loop offline "rocq" attempt_values fresh = (Thrown e, s')
             /\ generateEmbedding offline "rocq" fresh = (Thrown e, s')).
Proof.
  split; [reflexivity|].
  exact (proj1 (C10_fallback_after_loop_unreachable
                  offline "rocq" fresh eq_refl)).
Defined.

(** Three refused requests: waits of 4000 and 8000 ms, the third error out. *)
Lemma C6_witness :
  net offline (fetch_count (trace fresh)) = Rejected (JsError "fetch failed")
  /\ generateEmbedding offline "rocq" fresh
     = (Thrown (JsError "fetch failed"),
        {| trace := [request offline "rocq"; Slept 4000;
                     request offline "rocq"; Slept 8000;
                     request offline "rocq"];
           cachedUserSkillsEmbedding := None |}).
Proof.
  split; [reflexivity|].
  destruct (C6_exception_backoff_and_final_rethrow
              offline "rocq" fresh (JsError "fetch failed") eq_refl)
    as (_ & _ & _ & Hthree & _).
  exact (Hthree _ _ eq_refl eq_refl eq_refl).
Defined.

(** 429, 429, then a vector: waits of 10000 and 20000 ms, three requests. *)
Lemma C4_witness :
  answers_with_status (net limited_twice (fetch_count (trace fresh)))
                      429 "slow down"
  /\ generateEmbedding limited_twice "rocq" fresh
     = (Normal vector768,
        {| trace := [request limited_twice "rocq"; Slept 10000;
                     request limited_twice "rocq"; Slept 20000;
                     request limited_twice "rocq"];
           cachedUserSkillsEmbedding := None |}).
Proof.
  assert (H1 : answers_with_status
                 (net limited_twice (fetch_count (trace fresh)))
                 429 "slow down") by answer.
  split; [exact H1|].
  refine (proj1 (proj2 (C4_rate_limit_backoff limited_twice "rocq" fresh
                          "slow down" H1))
                "slow down" vector768 eq_refl _ _); answer.
Defined.

(** Three times status 500: two waits of 5000 ms, the third answer thrown. *)
Lemma C5_witness :
  answers_with_status (net down (fetch_count (trace fresh))) 500 "oops 1"
  /\ 500 <= 500
  /\ generateEmbedding down "rocq" fresh
     = (Thrown (ApiReturned 500 "oops 3"),
        {| trace := [request down "rocq"; Slept 5000;
                     request down "rocq"; Slept 5000;
                     request down "rocq"];
           cachedUserSkillsEmbedding := None |}).
Proof.
  assert (H1 : answers_with_status (net down (fetch_count (trace fresh)))
                                   500 "oops 1") by answer.
  assert (H500 : 500 <= 500) by lia.
  split; [exact H1|split; [exact H500|]].
  destruct (C5_server_error_retry_then_fail down "rocq" fresh 500 "oops 1" H1 H500)
    as (_ & _ & Hthree & _).
  refine (proj1 (Hthree 500 "oops 2" 500 "oops 3" eq_refl _ H500 _ H500)); answer.
Defined.

(** (C4) as the specification words it fails: a 429 answer whose body
    cannot be read, with attempts remaining, is not followed by a wait of
    [2^1 * 5000 = 10000] ms.  The rejection of the read is caught, 4000 ms
    pass, and the second request goes out. *)
Lemma C4_counterexample :
  (exists r,
      net cut_off_once (fetch_count (trace fresh)) = Resolved r
      /\ status r = 429)
  /\ generateEmbedding cut_off_once "rocq" fresh
     = (Normal vector768,
        {| trace := [request cut_off_once "rocq"; Slept 4000;
                     request cut_off_once "rocq"];
           cachedUserSkillsEmbedding := None |})
  /\ snd (generateEmbedding cut_off_once "rocq" fresh)
     <> extend fresh [request cut_off_once "rocq"; Slept (2 ^ 1 * 5000);
                      request cut_off_once "rocq"].
Proof.
  split; [eexists; split; reflexivity|split].
  - vm_compute. reflexivity.
  - vm_compute. discriminate.
Qed.

(** (C5) as the specification words it fails: three answers of status 503
    whose bodies cannot be read are not followed by waits of 5000 ms, and
    the call does not end in the error carrying status and body.  The waits
    are 4000 and 8000 ms, and the rejection of the third read is thrown. *)
Lemma C5_counterexample :
  (forall n, (n < 3)%nat ->
     exists r, net cut_down n = Resolved r /\ status r = 503)
  /\ generateEmbedding cut_down "rocq" fresh
     = (Thrown (JsError "terminated"),
        {| trace := [request cut_down "rocq"; Slept 4000;
                     request cut_down "rocq"; Slept 8000;
                     request cut_down "rocq"];
           cachedUserSkillsEmbedding := None |})
  /\ (forall body,
         generateEmbedding cut_down "rocq" fresh
         <> (Thrown (ApiReturned 503 body),
             extend fresh [request cut_down "rocq"; Slept 5000;
                           request cut_down "rocq"; Slept 5000;
                           request cut_down "rocq"])).
Proof.
  split; [|split].
  - intros [|[|[|n]]] Hn; try lia; eexists; split; reflexivity.
  - vm_compute. reflexivity.
  - intros body. vm_compute. discriminate.
Qed.

(** A 400 on the third attempt ends the call; on the first it is retried. *)
Lemma C1_witness :
  answers_with_status (net refused_once (fetch_count (trace fresh)))
                      400 "bad request"
  /\ ~ (200 <= 400 <= 299)
  /\ for_loop refused_once "rocq" [maxRetries] fresh
     = (Thrown (ApiReturned 400 "bad request"),
        {| trace := [request refused_once "rocq"];
           cachedUserSkillsEmbedding := None |})
  /\ for_loop refused_once "rocq" [1; 2; 3] fresh
     = for_loop refused_once "rocq" [2; 3]
         {| trace := [request refused_once "rocq"; Slept 4000];
            cachedUserSkillsEmbedding := None |}.
Proof.
  assert (H1 : answers_with_status
                 (net refused_once (fetch_count (trace fresh)))
                 400 "bad request") by answer.
  assert (H2 : ~ (200 <= 400 <= 299)) by lia.
  split; [exact H1|split; [exact H2|]].
  destruct (C1_status_error_ends_call_on_last_attempt
              refused_once "rocq" fresh 400 "bad request" H1 H2)
    as (Hlast & _ & _ & Hearlier & _ & _).
  split; [exact (Hlast [])|].
  refine (Hearlier 1 [2; 3] _ _ _); unfold maxRetries; lia.
Defined.

(** (C1) as the specification words it fails: a 400 on the first attempt
    does not end the call.  The error is caught, 4000 ms pass, a second request goes out, and
    its vector is returned. *)
Lemma C1_counterexample :
  answers_with_status (net refused_once (fetch_count (trace fresh)))
                      400 "bad request"
  /\ generateEmbedding refused_once "rocq" fresh
     = (Normal vector768,
        {| trace := [request refused_once "rocq"; Slept 4000;
                     request refused_once "rocq"];
           cachedUserSkillsEmbedding := None |})
  /\ generateEmbedding refused_once "rocq" fresh
     <> (Thrown (ApiReturned 400 "bad request"),
         extend fresh [request refused_once "rocq"]).
Proof.
  split; [answer|split].
  - vm_compute. reflexivity.
  - vm_compute. discriminate.
Qed.

(** A full vector on the first answer is returned as it is. *)
Lemma C2_witness :
  answers_with_body (net skilled (fetch_count (trace fresh)))
                    (body_with vector768)
  /\ generateEmbedding skilled "rocq" fresh
     = (Normal vector768,
        {| trace := [request skilled "rocq"];
           cachedUserSkillsEmbedding := None |}).
Proof.
  assert (H1 : answers_with_body (net skilled (fetch_count (trace fresh)))
                                 (body_with vector768)) by answer.
  split; [exact H1|].
  destruct (C2_vector_returned_as_received
              skilled "rocq" fresh (body_with vector768) H1) as (Hgood & _ & _).
  exact (proj2 (Hgood vector768 eq_refl eq_refl) eq_refl).
Defined.

(** (C2) as the specification words it fails: a success answer with a
    vector of two elements does not make the call fail.  The error is caught, 4000 ms
    pass, and the vector of the second answer is returned. *)
Lemma C2_counterexample :
  answers_with_body (net short_once (fetch_count (trace fresh)))
                    (body_with [JNum 1; JNum 2])
  /\ vector_field (body_with [JNum 1; JNum 2]) = Some (JArr [JNum 1; JNum 2])
  /\ generateEmbedding short_once "rocq" fresh
     = (Normal vector768,
        {| trace := [request short_once "rocq"; Slept 4000;
                     request short_once "rocq"];
           cachedUserSkillsEmbedding := None |}).
Proof.
  split; [answer|split].
  - reflexivity.
  - vm_compute. reflexivity.
Qed.

(** Two calls, one request; after the reset a third call asks the store
    again (the skills have changed) and makes the second request. *)
Lemma C3_witness :
  cachedUserSkillsEmbedding fresh = None
  /\ key_missing (JINA_API_KEY skilled) = false
  /\ store skilled (select_count (trace fresh))
     = with_skills ["rocq"; "typescript"]
  /\ answers_with_vector (net skilled (fetch_count (trace fresh))) vector768
  /\ let s1 := {| trace := [Selected; request skilled "rocq, typescript"];
                  cachedUserSkillsEmbedding := Some vector768 |} in
     generateUserSkillsEmbedding skilled fresh = (Normal vector768, s1)
     /\ generateUserSkillsEmbedding skilled s1 = (Normal vector768, s1)
     /\ fetch_count (trace s1) = 1%nat
     /\ generateUserSkillsEmbedding skilled (snd (clearUserSkillsCache s1))
        = (Normal other768,
           {| trace := [Selected; request skilled "rocq, typescript";
                        Selected; request skilled "ocaml"];
              cachedUserSkillsEmbedding := Some other768 |}).
Proof.
  assert (Hv : answers_with_vector (net skilled (fetch_count (trace fresh)))
                                   vector768) by answer.
  assert (Hs : skills {| skills := ["rocq"; "typescript"] |} <> [])
    by discriminate.
  split; [reflexivity|split; [reflexivity|split; [reflexivity|split; [exact Hv|]]]].
  destruct (C3_cache_hit_until_reset skilled fresh
              {| skills := ["rocq"; "typescript"] |} vector768
              eq_refl eq_refl eq_refl Hs Hv)
    as (Hfirst & Hsecond & Hcount & _ & _ & _ & Hafter).
  cbv zeta. split; [exact Hfirst|split; [exact Hsecond|split; [exact Hcount|]]].
  refine (proj1 (Hafter {| skills := ["ocaml"] |} other768 eq_refl _ _));
    [discriminate|answer].
Defined.

(** An empty skills list: the error of line 119 after the query alone. *)
Lemma C8_witness :
  (exists prefs,
      data (store no_skills (select_count (trace fresh))) = Some prefs
      /\ skills prefs = [])
  /\ generateUserSkillsEmbedding no_skills fresh
     = (Thrown PreferencesNotSet,
        {| trace := [Selected]; cachedUserSkillsEmbedding := None |})
  /\ fetch_count (trace (snd (generateUserSkillsEmbedding no_skills fresh)))
     = 0%nat.
Proof.
  assert (He : exists prefs,
             data (store no_skills (select_count (trace fresh))) = Some prefs
             /\ skills prefs = [])
    by (exists {| skills := [] |}; split; reflexivity).
  split; [exact He|].
  destruct (C8_missing_preferences_fail_without_request no_skills fresh
              (or_intror (or_intror He))) as (Hthrow & _ & Hcount).
  split; [exact (Hthrow eq_refl)|exact Hcount].
Defined.

(** A 2xx answer that gives the scraped count only: the other is 0. *)
Lemma C9_witness :
  PipelineTrigger.finished
    (PipelineTrigger.handleTrigger (Some "s3cret") pipeline_done idle)
  = {| PipelineTrigger.isLoading := false;
       PipelineTrigger.result :=
         Some {| PipelineTrigger.success := true;
                 PipelineTrigger.message :=
                   "✅ Success! 12 jobs scraped, 0 processed" |} |}.
Proof.
  destruct (C9_trigger_reports_counts_or_failure (Some "s3cret") pipeline_done idle)
    as (Hok & _).
  exact (proj1 (Hok _ _ _ _ "12" "0" eq_refl eq_refl eq_refl eq_refl eq_refl
                   eq_refl eq_refl)).
Defined.

End ConcreteRuns.

(** * Further properties: the effort of one call *)

Section FetcherEffort.
Import Js Embeddings.
Context {num : Type} `{Host num}.
Variable W : World num.

(** One pass through the loop body makes one request and then returns,
    or waits one of the three delays and goes on (never on the third
    attempt), or throws (only on the third attempt). *)
Lemma iteration_shape text attempt (s : State num) :
  let req := Fetched (embedding_request W text) in
  (exists v, iteration W text attempt s = (Normal (Returns v), extend s [req]))
  \/ (attempt <> maxRetries
      /\ exists w,
          In w (backoffs attempt)
          /\ iteration W text attempt s
             = (Normal NextAttempt, extend s [req; Slept w]))
  \/ (attempt = maxRetries
      /\ exists e, iteration W text attempt s = (Thrown e, extend s [req])).
Proof.
  intros req.
  assert (Hcatch : forall e,
             (attempt <> maxRetries
              /\ exists w,
                  In w (backoffs attempt)
                  /\ catch_block attempt e (extend s [req])
                     = (Normal NextAttempt, extend s [req; Slept w]))
             \/ (attempt = maxRetries
                 /\ exists e',
                     catch_block attempt e (extend s [req])
                     = (Thrown e', extend s [req]))).
  { intros e. destruct (Z.eq_dec attempt maxRetries) as [->|Hne].
    - right. split; [reflexivity|]. exists e. apply catch_block_final.
    - left. split; [exact Hne|]. exists (2 ^ attempt * 2000). split.
      + right. right. left. reflexivity.
      + rewrite (catch_block_retry _ _ _ Hne). now rewrite extend_extend. }
  destruct (net W (fetch_count (trace s))) as [e|r] eqn:E.
  - rewrite (iteration_rejected W _ _ _ _ E). right. apply Hcatch.
  - destruct (ok r) eqn:Hok.
    + destruct (json_body r) as [e|result] eqn:Hbody.
      * rewrite (iteration_ok_unparsed W _ _ _ _ _ E Hok Hbody).
        right. apply Hcatch.
      * rewrite (iteration_ok W _ _ _ _ _ E Hok Hbody). cbv zeta.
        destruct (extract_embedding result) as [e|v].
        -- right. apply Hcatch.
        -- left. exists v. reflexivity.
    + destruct (Js.text r) as [e|body] eqn:Hbody.
      * rewrite (iteration_not_ok_unread W _ _ _ _ _ E Hok Hbody).
        right. apply Hcatch.
      * rewrite (iteration_not_ok W _ _ _ _ _ E Hok Hbody). cbv zeta.
        destruct (Z.ltb_spec attempt maxRetries) as [Hlt|Hge].
        -- rewrite !andb_true_r.
           destruct (status r =? 429).
           ++ right. left. split; [lia|]. exists (2 ^ attempt * 5000). split.
              ** left. reflexivity.
              ** now rewrite extend_extend.
           ++ destruct (status r >=? 500).
              ** right. left. split; [lia|]. exists 5000. split.
                 --- right. left. reflexivity.
                 --- now rewrite extend_extend.
              ** right. apply Hcatch.
        -- rewrite !andb_false_r. right. apply Hcatch.
Qed.

(** The loop over the three attempts: the trace it adds, and that a throw
    comes after two waits. *)
Lemma for_loop_shape text (s : State num) :
  exists ws,
    possible_waits ws
    /\ snd (for_loop W text [1; 2; 3] s)
       = extend s (run_trace (Fetched (embedding_request W text)) ws)
    /\ fst (for_loop W text [1; 2; 3] s) <> Normal Exhausted
    /\ (forall e,
           fst (for_loop W text [1; 2; 3] s) = Thrown e -> List.length ws = 2%nat).
Proof.
  set (req := Fetched (embedding_request W text)).
  rewrite for_loop_cons.
  destruct (iteration_shape text 1 s)
    as [(v & E1)|[(_ & w1 & Hw1 & E1)|(Heq & _)]]; [| |discriminate Heq].
  { rewrite E1. exists []. cbn [fst snd run_trace].
    repeat split; try discriminate. now left. }
  rewrite E1. fold req. set (s1 := extend s [req; Slept w1]).
  rewrite for_loop_cons.
  destruct (iteration_shape text 2 s1)
    as [(v & E2)|[(_ & w2 & Hw2 & E2)|(Heq & _)]]; [| |discriminate Heq].
  { rewrite E2. exists [w1]. cbn [fst snd run_trace]. unfold s1.
    rewrite extend_extend. repeat split; try discriminate.
    right. left. exists w1. split; [reflexivity|exact Hw1]. }
  rewrite E2. fold req. set (s2 := extend s1 [req; Slept w2]).
  assert (Hws : possible_waits [w1; w2]).
  { right. right. exists w1, w2. repeat split; assumption. }
  rewrite for_loop_cons.
  destruct (iteration_shape text 3 s2)
    as [(v & E3)|[(Hne & _)|(_ & e & E3)]]; [| contradiction Hne; reflexivity|].
  - rewrite E3. exists [w1; w2]. cbn [fst snd run_trace]. unfold s2, s1.
    rewrite !extend_extend. repeat split; try discriminate. exact Hws.
  - rewrite E3. exists [w1; w2]. cbn [fst snd run_trace]. unfold s2, s1.
    rewrite !extend_extend. repeat split; try discriminate. exact Hws.
Qed.

Lemma generateEmbedding_shape text (s : State num) :
  key_missing (JINA_API_KEY W) = false ->
  exists ws,
    possible_waits ws
    /\ snd (generateEmbedding W text s)
       = extend s (run_trace (Fetched (embedding_request W text)) ws)
    /\ (forall e,
           fst (generateEmbedding W text s) = Thrown e ->
           List.length ws = 2%nat).
Proof.
  intros Hkey. rewrite (generateEmbedding_configured W _ _ Hkey).
  destruct (for_loop_shape text s) as (ws & Hws & Hsnd & Hex & Hthrow).
  exists ws. split; [exact Hws|].
  destruct (for_loop W text [1; 2; 3] s) as [[[v|]|e] s1]; cbn [fst snd] in *.
  - split; [exact Hsnd|discriminate].
  - contradiction Hex; reflexivity.
  - split; [exact Hsnd|]. intros e' _. exact (Hthrow e eq_refl).
Qed.

(** The counts of a run's trace. *)
Lemma run_trace_counts text ws :
  possible_waits ws ->
  let evs := run_trace (Fetched (embedding_request W text)) ws in
  fetch_count evs = S (List.length ws)
  /\ (List.length ws <= 2)%nat
  /\ select_count evs = 0%nat
  /\ 0 <= total_wait evs <= 30000.
Proof.
  intros [->|[(w1 & -> & H1)|(w1 & w2 & -> & H1 & H2)]]; cbn.
  - repeat split; lia.
  - destruct H1 as [<-|[<-|[<-|[]]]]; repeat split; lia.
  - destruct H1 as [<-|[<-|[<-|[]]]]; destruct H2 as [<-|[<-|[<-|[]]]];
      repeat split; lia.
Qed.

(** With or without a key: what a call adds to the trace. *)
Lemma generateEmbedding_effort text (s : State num) :
  exists evs,
    snd (generateEmbedding W text s) = extend s evs
    /\ (fetch_count evs <= 3)%nat
    /\ select_count evs = 0%nat
    /\ 0 <= total_wait evs <= 30000
    /\ (key_missing (JINA_API_KEY W) = false -> (1 <= fetch_count evs)%nat).
Proof.
  destruct (key_missing (JINA_API_KEY W)) eqn:Hkey.
  - exists []. unfold generateEmbedding. rewrite Hkey. cbn.
    rewrite extend_nil. repeat split; lia.
  - destruct (generateEmbedding_shape text s Hkey) as (ws & Hws & Hsnd & _).
    destruct (run_trace_counts text ws Hws) as (Hf & Hl & Hsel & Hw).
    eexists. split; [exact Hsnd|]. rewrite Hf.
    split; [lia|split; [exact Hsel|split; [exact Hw|intros _; lia]]].
Qed.

(** (X1) One call of [generateEmbedding] makes at most three requests (at
    least one when a key is configured) and spends at most 30000 ms in
    timers; it only adds to the trace, never queries the preference store
    and leaves the cache as it was. *)
Theorem X1_call_effort_is_bounded text (s : State num) :
  exists evs,
    snd (generateEmbedding W text s) = extend s evs
    /\ (fetch_count evs <= 3)%nat
    /\ select_count evs = 0%nat
    /\ 0 <= total_wait evs <= 30000
    /\ (key_missing (JINA_API_KEY W) = false -> (1 <= fetch_count evs)%nat)
    /\ cachedUserSkillsEmbedding (snd (generateEmbedding W text s))
       = cachedUserSkillsEmbedding s.
Proof.
  destruct (generateEmbedding_effort text s) as (evs & Hs & Hf & Hsel & Hw & Hk).
  exists evs. rewrite Hs. repeat split; try assumption; apply Hw.
Qed.

(** (X2) With a key configured, [generateEmbedding] throws only out of its
    third attempt: when it throws, it has made exactly three requests and
    waited twice, after the first and after the second. *)
Theorem X2_throws_only_after_three_requests text (s s' : State num) e :
  key_missing (JINA_API_KEY W) = false ->
  generateEmbedding W text s = (Thrown e, s') ->
  let req := Fetched (embedding_request W text) in
  exists w1 w2,
    In w1 (backoffs 1) /\ In w2 (backoffs 2)
    /\ s' = extend s [req; Slept w1; req; Slept w2; req]
    /\ fetch_count (trace s') = (3 + fetch_count (trace s))%nat.
Proof.
  intros Hkey Hrun req.
  destruct (generateEmbedding_shape text s Hkey) as (ws & Hws & Hsnd & Hthrow).
  rewrite Hrun in Hsnd, Hthrow. cbn [fst snd] in *.
  specialize (Hthrow e eq_refl).
  destruct Hws as [->|[(w1 & -> & _)|(w1 & w2 & -> & H1 & H2)]];
    try discriminate Hthrow.
  exists w1, w2. cbn [run_trace] in Hsnd. fold req in Hsnd.
  repeat split; try assumption.
  rewrite Hsnd, fetch_count_extend. cbn. lia.
Qed.

(** (X3) With a key configured, the trace one call adds is a strict
    alternation: the same request each time (the text given, 768
    dimensions, the key as bearer token), a wait between two requests, and
    a request last, so the call never waits before it returns or throws. *)
Theorem X3_requests_and_waits_alternate text (s : State num) :
  key_missing (JINA_API_KEY W) = false ->
  let req := embedding_request W text in
  (exists ws,
      possible_waits ws
      /\ snd (generateEmbedding W text s) = extend s (run_trace (Fetched req) ws))
  /\ input req = [text]
  /\ dimensions req = 768
  /\ (forall k, JINA_API_KEY W = Some k -> authorization req = "Bearer " ++ k).
Proof.
  intros Hkey req.
  destruct (generateEmbedding_shape text s Hkey) as (ws & Hws & Hsnd & _).
  split; [exists ws; split; assumption|].
  repeat split. intros k Hk. unfold req, embedding_request, bearer. cbn.
  now rewrite Hk.
Qed.

End FetcherEffort.

(** * Further properties: answers at the edges *)

Section EdgeAnswers.
Import Js Embeddings.
Context {num : Type} `{Host num}.
Variable W : World num.

(** Whatever reaches the handler on a known attempt. *)
Lemma loop_after_catch text attempt rest (s : State num) e :
  iteration W text attempt s
  = catch_block attempt e (extend s [Fetched (embedding_request W text)]) ->
  for_loop W text (attempt :: rest) s
  = let req := Fetched (embedding_request W text) in
    if attempt =? maxRetries then (Thrown e, extend s [req])
    else for_loop W text rest (extend s [req; Slept (2 ^ attempt * 2000)]).
Proof.
  intros Hit. rewrite for_loop_cons, Hit. cbv zeta.
  destruct (Z.eqb_spec attempt maxRetries) as [->|Hne].
  - now rewrite catch_block_final.
  - now rewrite (catch_block_retry _ _ _ Hne), extend_extend.
Qed.

(** (X4) A success answer whose body is the JSON value [null] does not give
    the module's "Invalid response format": reading [result.data] throws the
    engine's [TypeError].  It is handled like every thrown value: caught and
    retried after [2^attempt * 2000] ms on the first two attempts, thrown
    out of the function on the third. *)
Theorem X4_null_body_throws_type_error text (s : State num) :
  answers_with_body (net W (fetch_count (trace s))) JNull ->
  let req := Fetched (embedding_request W text) in
  let err := JsError (null_read_message "data") in
  extract_embedding (JNull : json num) = inl err
  /\ (forall rest,
         for_loop W text (maxRetries :: rest) s = (Thrown err, extend s [req]))
  /\ (forall attempt rest,
         1 <= attempt < maxRetries ->
         for_loop W text (attempt :: rest) s
         = for_loop W text rest (extend s [req; Slept (2 ^ attempt * 2000)]))
  /\ (key_missing (JINA_API_KEY W) = false ->
      answers_with_body (net W (1 + fetch_count (trace s))) JNull ->
      answers_with_body (net W (2 + fetch_count (trace s))) JNull ->
      generateEmbedding W text s
      = (Thrown err, extend s [req; Slept 4000; req; Slept 8000; req])).
Proof.
  intros E req err.
  assert (Hex : extract_embedding (JNull : json num) = inl err) by reflexivity.
  split; [exact Hex|split; [|split]].
  - intros rest. now rewrite (loop_after_bad_body W _ _ _ _ _ _ E Hex).
  - intros attempt rest [_ Hlt].
    rewrite (loop_after_bad_body W _ _ _ _ _ _ E Hex). cbv zeta.
    destruct (Z.eqb_spec attempt maxRetries); [lia|reflexivity].
  - intros Hkey E2 E3.
    rewrite (generateEmbedding_configured W _ _ Hkey).
    rewrite (loop_after_bad_body W _ _ _ _ _ _ E Hex). cbv zeta.
    change (1 =? maxRetries) with false. cbv iota.
    rewrite loop_after_bad_body with (result := JNull) (e := err);
      [|now rewrite fetch_count_after_attempt|exact Hex].
    cbv zeta. change (2 =? maxRetries) with false. cbv iota.
    rewrite loop_after_bad_body with (result := JNull) (e := err);
      [|now rewrite !fetch_count_after_attempt|exact Hex].
    cbv zeta. change (3 =? maxRetries) with true. cbv iota.
    now rewrite !extend_extend.
Qed.

(** (X5) When the body of an answer cannot be read ([response.text()]
    rejects on a non-success status, or [response.json()] rejects on a
    success status), the status no longer matters, be it 429 or 500: the
    rejection goes to the handler, which waits [2^attempt * 2000] ms on the
    first two attempts and throws the rejection itself on the third. *)
Theorem X5_unreadable_body_goes_to_handler text (s : State num) r e :
  net W (fetch_count (trace s)) = Resolved r ->
  (ok r = false /\ Js.text r = inl e) \/ (ok r = true /\ json_body r = inl e) ->
  let req := Fetched (embedding_request W text) in
  (forall attempt rest,
      1 <= attempt < maxRetries ->
      for_loop W text (attempt :: rest) s
      = for_loop W text rest (extend s [req; Slept (2 ^ attempt * 2000)]))
  /\ (forall rest,
         for_loop W text (maxRetries :: rest) s = (Thrown e, extend s [req])).
Proof.
  intros E Hbody req.
  assert (Hit : forall attempt,
             iteration W text attempt s = catch_block attempt e (extend s [req])).
  { intros attempt. destruct Hbody as [[Hok Hb]|[Hok Hb]].
    - exact (iteration_not_ok_unread W _ _ _ _ _ E Hok Hb).
    - exact (iteration_ok_unparsed W _ _ _ _ _ E Hok Hb). }
  split.
  - intros attempt rest [_ Hlt].
    rewrite (loop_after_catch _ _ _ _ _ (Hit attempt)). cbv zeta.
    destruct (Z.eqb_spec attempt maxRetries); [lia|reflexivity].
  - intros rest. now rewrite (loop_after_catch _ _ _ _ _ (Hit maxRetries)).
Qed.

(** (X6) Which error a body gives.  A body that is no object (and not
    [null]), one without [data], or one whose [data] is an empty list gives
    "Invalid response format"; a first item without a list under
    [embedding] gives "Embedding is not an array"; a list of the wrong
    length gives the dimension error, whose message reports the length
    received. *)
Theorem X6_extraction_errors (result : json num) :
  match result with
  | JNull | JObj _ => True
  | _ => extract_embedding result = inl InvalidResponseFormat
  end
  /\ (forall fields,
         result = JObj fields ->
         lookup_field "data" fields = None
         \/ lookup_field "data" fields = Some (JArr []) ->
         extract_embedding result = inl InvalidResponseFormat)
  /\ (forall fields item rest,
         result = JObj fields ->
         lookup_field "data" fields = Some (JArr (JObj item :: rest)) ->
         (forall v, lookup_field "embedding" item <> Some (JArr v)) ->
         extract_embedding result = inl EmbeddingNotArray)
  /\ (forall v,
         vector_field result = Some (JArr v) ->
         List.length v <> 768%nat ->
         extract_embedding result = inl (UnexpectedDimensions (List.length v))
         /\ Js.message (UnexpectedDimensions (List.length v))
            = Some ("Expected 768 dimensions, got " ++ show_nat (List.length v))).
Proof.
  split; [|split; [|split]].
  - destruct result; try exact I; reflexivity.
  - intros fields -> [Hd|Hd]; unfold extract_embedding; cbn [get];
      rewrite Hd; reflexivity.
  - intros fields item rest -> Hd Hemb. unfold extract_embedding. cbn [get].
    rewrite Hd. cbn.
    destruct (lookup_field "embedding" item) as [[| | | |v|]|]; try reflexivity.
    exfalso. exact (Hemb v eq_refl).
  - intros v Hfield Hlen. split; [|reflexivity].
    destruct (extract_embedding result) as [e|v'] eqn:Hex.
    + revert Hfield Hex. unfold vector_field, extract_embedding.
      destruct result as [| | | | |fields]; try discriminate. cbn [get].
      destruct (lookup_field "data" fields) as [[| | | |[|[| | | | |item] rest]|]|];
        try discriminate.
      intros Hf. cbn. rewrite Hf.
      destruct (Nat.eqb_spec (List.length v) 768) as [Heq|_]; [contradiction|].
      cbn. now intros [= <-].
    + apply extract_embedding_vector in Hex. destruct Hex as [Hf Hl].
      rewrite Hfield in Hf. injection Hf as <-. contradiction.
Qed.

End EdgeAnswers.

(** * Further properties: the cache across calls *)

Section CacheAcrossCalls.
Import Js Embeddings.
Context {num : Type} `{Host num}.
Variable W : World num.

(** The three ways a call of the accessor goes. *)
Lemma accessor_cases (s : State num) :
  (exists cached,
      cachedUserSkillsEmbedding s = Some cached
      /\ generateUserSkillsEmbedding W s = (Normal cached, s))
  \/ (cachedUserSkillsEmbedding s = None
      /\ generateUserSkillsEmbedding W s
         = (Thrown PreferencesNotSet, extend s [Selected]))
  \/ (exists prefs,
         cachedUserSkillsEmbedding s = None
         /\ store W (select_count (trace s))
            = {| data := Some prefs; error := None |}
         /\ skills prefs <> []
         /\ generateUserSkillsEmbedding W s
            = match generateEmbedding W (String.concat ", " (skills prefs))
                      (extend s [Selected]) with
              | (Normal embedding, s') =>
                  (Normal embedding,
                   {| trace := trace s';
                      cachedUserSkillsEmbedding := Some embedding |})
              | (Thrown e, s') => (Thrown e, s')
              end).
Proof.
  destruct (cachedUserSkillsEmbedding s) as [cached|] eqn:Hc.
  { left. exists cached. split; [reflexivity|]. now apply cached_is_returned. }
  right.
  destruct (store W (select_count (trace s))) as [d err] eqn:Hstore.
  destruct err as [err|].
  { left. split; [reflexivity|]. apply uncached_without_prefs; [exact Hc|].
    rewrite Hstore. left. discriminate. }
  destruct d as [prefs|].
  2:{ left. split; [reflexivity|]. apply uncached_without_prefs; [exact Hc|].
      rewrite Hstore. right. left. reflexivity. }
  destruct (skills prefs) as [|sk rest] eqn:Hsk.
  - left. split; [reflexivity|]. apply uncached_without_prefs; [exact Hc|].
    rewrite Hstore. right. right. exists prefs. split; [reflexivity|exact Hsk].
  - right. exists prefs.
    assert (Hne : skills prefs <> []) by (rewrite Hsk; discriminate).
    repeat split; try assumption.
    exact (uncached_delegates W _ prefs Hc Hstore Hne).
Qed.

(** (X7) A call of the accessor that throws found the cache empty and
    leaves it empty, after exactly one preference query: a failure is never
    cached, and the next call starts over with the store. *)
Theorem X7_failure_is_not_cached (s s' : State num) e :
  generateUserSkillsEmbedding W s = (Thrown e, s') ->
  cachedUserSkillsEmbedding s = None
  /\ cachedUserSkillsEmbedding s' = None
  /\ select_count (trace s') = S (select_count (trace s)).
Proof.
  destruct (accessor_cases s)
    as [(cached & _ & Hrun)|[(Hc & Hrun)|(prefs & Hc & _ & _ & Hrun)]];
    rewrite Hrun.
  - discriminate.
  - intros [= <- <-]. cbn. rewrite select_count_app. cbn.
    repeat split; [exact Hc|exact Hc|lia].
  - destruct (generateEmbedding_effort W (String.concat ", " (skills prefs))
                (extend s [Selected])) as (evs & Hs & _ & Hsel & _).
    destruct (generateEmbedding W _ _) as [[v|e'] s1]; [discriminate|].
    cbn [snd] in Hs. intros [= <- <-]. subst s1. cbn.
    rewrite !select_count_app, Hsel. cbn. repeat split; [exact Hc|exact Hc|lia].
Qed.

(** (X8) The cache only ever holds a vector of 768 elements: when that is
    so before a call of the accessor or of the reset, it is so after it, and
    every vector the accessor returns, cached or fresh, has 768 elements. *)
Theorem X8_cache_keeps_dimension (s : State num) :
  cache_dimension_ok s = true ->
  cache_dimension_ok (snd (generateUserSkillsEmbedding W s)) = true
  /\ (forall v,
         fst (generateUserSkillsEmbedding W s) = Normal v ->
         List.length v = 768%nat)
  /\ cache_dimension_ok (snd (clearUserSkillsCache s)) = true.
Proof.
  intros Hok. split; [|split; [|reflexivity]].
  - destruct (accessor_cases s)
      as [(cached & _ & Hrun)|[(Hc & Hrun)|(prefs & Hc & _ & _ & Hrun)]];
      rewrite Hrun.
    + exact Hok.
    + unfold cache_dimension_ok. cbn. now rewrite Hc.
    + destruct (generateEmbedding_effort W (String.concat ", " (skills prefs))
                  (extend s [Selected])) as (evs & Hs & _).
      destruct (generateEmbedding W _ _) as [[v|e'] s1] eqn:Hgen; cbn [snd] in *.
      * destruct (generateEmbedding_returns W _ _ _ _ Hgen)
          as (s2 & (r & res & _ & _ & _ & _ & Hlen) & _).
        unfold cache_dimension_ok. cbn. now apply Nat.eqb_eq.
      * subst s1. unfold cache_dimension_ok. cbn. now rewrite Hc.
  - intros v.
    destruct (accessor_cases s)
      as [(cached & Hc & Hrun)|[(Hc & Hrun)|(prefs & Hc & _ & _ & Hrun)]];
      rewrite Hrun.
    + intros [= <-]. unfold cache_dimension_ok in Hok. rewrite Hc in Hok.
      now apply Nat.eqb_eq.
    + discriminate.
    + destruct (generateEmbedding W _ _) as [[v'|e'] s1] eqn:Hgen;
        [|discriminate].
      intros [= <-].
      destruct (generateEmbedding_returns W _ _ _ _ Hgen)
        as (s2 & (r & res & _ & _ & _ & _ & Hlen) & _).
      exact Hlen.
Qed.

(** (X9) One call of the accessor either adds nothing to the trace (and
    so it does whenever the cache is populated) or adds one preference
    query followed by at most three requests and at most 30000 ms of
    waits; the query always comes before the first request. *)
Theorem X9_accessor_effort_is_bounded (s : State num) :
  exists evs,
    trace (snd (generateUserSkillsEmbedding W s)) = (trace s ++ evs)%list
    /\ (evs = []
        \/ exists rest,
            evs = Selected :: rest
            /\ select_count rest = 0%nat
            /\ (fetch_count rest <= 3)%nat
            /\ 0 <= total_wait rest <= 30000)
    /\ (cachedUserSkillsEmbedding s <> None -> evs = []).
Proof.
  destruct (accessor_cases s)
    as [(cached & Hc & Hrun)|[(Hc & Hrun)|(prefs & Hc & _ & _ & Hrun)]];
    rewrite Hrun.
  - exists []. cbn. rewrite app_nil_r. repeat split; auto.
  - exists [Selected]. cbn. split; [reflexivity|split].
    + right. exists []. cbn. repeat split; lia.
    + intros Hne. contradiction.
  - destruct (generateEmbedding_effort W (String.concat ", " (skills prefs))
                (extend s [Selected])) as (evs & Hs & Hf & Hsel & Hw & _).
    exists (Selected :: evs). split; [|split].
    + destruct (generateEmbedding W _ _) as [[v|e'] s1]; cbn [snd] in *;
        subst s1; cbn; now rewrite <- app_assoc.
    + right. exists evs. repeat split; try assumption; apply Hw.
    + intros Hne. contradiction.
Qed.

(** (X10) The API key is looked at only after the preference query: with
    an empty cache, skills on record and no key, the accessor queries the
    store, then throws the missing-key error without a request, and the
    cache stays empty. *)
Theorem X10_accessor_without_key (s : State num) prefs :
  cachedUserSkillsEmbedding s = None ->
  store W (select_count (trace s)) = {| data := Some prefs; error := None |} ->
  skills prefs <> [] ->
  key_missing (JINA_API_KEY W) = true ->
  generateUserSkillsEmbedding W s = (Thrown ApiKeyNotSet, extend s [Selected]).
Proof.
  intros Hc Hstore Hskills Hkey.
  rewrite (uncached_delegates W _ _ Hc Hstore Hskills).
  unfold generateEmbedding. now rewrite Hkey.
Qed.

(** (X11) The reset empties the cache and nothing else; doing it twice is
    doing it once; and the call that follows a reset always asks the
    preference store, exactly once. *)
Theorem X11_reset_forces_a_new_query (s : State num) :
  let s0 := snd (clearUserSkillsCache s) in
  fst (clearUserSkillsCache s) = Normal tt
  /\ cachedUserSkillsEmbedding s0 = None
  /\ trace s0 = trace s
  /\ clearUserSkillsCache s0 = (Normal tt, s0)
  /\ select_count (trace (snd (generateUserSkillsEmbedding W s0)))
     = S (select_count (trace s)).
Proof.
  intros s0. repeat split.
  destruct (accessor_cases s0)
    as [(cached & Hc & _)|[(_ & Hrun)|(prefs & _ & _ & _ & Hrun)]].
  - discriminate Hc.
  - rewrite Hrun. cbn. rewrite select_count_app. cbn. lia.
  - rewrite Hrun.
    destruct (generateEmbedding_effort W (String.concat ", " (skills prefs))
                (extend s0 [Selected])) as (evs & Hs & _ & Hsel & _).
    destruct (generateEmbedding W _ _) as [[v|e'] s1]; cbn [snd] in *;
      subst s1; cbn; rewrite !select_count_app, Hsel; cbn; lia.
Qed.

(** (X12) With an empty cache, skills on record and a key, the accessor
    makes its query first and then sends, in every request of the call, the
    skills joined by a comma and a space as the one input text. *)
Theorem X12_accessor_embeds_joined_skills (s : State num) prefs :
  cachedUserSkillsEmbedding s = None ->
  store W (select_count (trace s)) = {| data := Some prefs; error := None |} ->
  skills prefs <> [] ->
  key_missing (JINA_API_KEY W) = false ->
  let req := embedding_request W (String.concat ", " (skills prefs)) in
  input req = [String.concat ", " (skills prefs)]
  /\ exists ws,
      possible_waits ws
      /\ trace (snd (generateUserSkillsEmbedding W s))
         = (trace s ++ Selected :: run_trace (Fetched req) ws)%list.
Proof.
  intros Hc Hstore Hskills Hkey req. split; [reflexivity|].
  rewrite (uncached_delegates W _ _ Hc Hstore Hskills).
  destruct (generateEmbedding_shape W (String.concat ", " (skills prefs))
              (extend s [Selected]) Hkey) as (ws & Hws & Hsnd & _).
  exists ws. split; [exact Hws|].
  destruct (generateEmbedding W _ _) as [[v|e'] s1]; cbn [snd] in *;
    subst s1; cbn; now rewrite <- app_assoc.
Qed.

End CacheAcrossCalls.

(** * Further properties: what the trigger shows *)

Section TriggerShows.
Import Js PipelineTrigger.
Context {num : Type} `{Host num}.

Lemma prefix_app (a b : string) : String.prefix a (a ++ b) = true.
Proof.
  induction a as [|c a IH]; [destruct b; reflexivity|].
  cbn. destruct (Ascii.ascii_dec c c) as [_|Hne]; [exact IH|contradiction].
Qed.

(** What the [try] block can hand to [setResult]. *)
Lemma try_block_shown (outcome : FetchOutcome num) r :
  try_block outcome = inr r ->
  exists resp data,
    outcome = Resolved resp /\ json_body resp = inr data /\ data <> JNull
    /\ success r = ok resp
    /\ String.prefix (if ok resp then "✅ Success! " else "❌ Error: ")
                      (message r) = true.
Proof.
  destruct outcome as [e|resp]; [discriminate|].
  unfold try_block, and_then.
  destruct (json_body resp) as [e|data] eqn:Hbody; [discriminate|].
  intros Htry. exists resp, data. split; [reflexivity|split; [exact Hbody|]].
  assert (Hnull : data <> JNull).
  { intros ->. destruct (ok resp); discriminate Htry. }
  split; [exact Hnull|].
  destruct (ok resp).
  - destruct (get data "scraped") as [e|scraped]; [discriminate|].
    destruct (get data "processed") as [e|processed]; [discriminate|].
    destruct (to_string (or_else (get_optional scraped "jobsScraped") _))
      as [e|a]; [discriminate|].
    destruct (to_string (or_else (get_optional processed "success") _))
      as [e|b]; [discriminate|].
    injection Htry as <-. split; [reflexivity|].
    exact (prefix_app "✅ Success! " _).
  - destruct (get data "error") as [e|err]; [discriminate|].
    destruct (to_string _) as [e|shown]; [discriminate|].
    injection Htry as <-. split; [reflexivity|].
    exact (prefix_app "❌ Error: " _).
Qed.

(** (X13) Every run of the callback ends with the loading flag down and
    exactly one result.  The result says success only when the answer had a
    2xx status and a body that parsed to something other than [null]; its
    message starts with the success mark when it says success and with the
    error mark when it does not. *)
Theorem X13_success_only_on_ok_answer secret (outcome : FetchOutcome num) st :
  let final := finished (handleTrigger secret outcome st) in
  isLoading final = false
  /\ exists r,
      result final = Some r
      /\ (success r = true ->
          exists resp data,
            outcome = Resolved resp /\ ok resp = true
            /\ json_body resp = inr data /\ data <> JNull)
      /\ String.prefix (if success r then "✅ Success! " else "❌ Error: ")
                        (message r) = true.
Proof.
  intros final. split; [reflexivity|].
  destruct (try_block outcome) as [e|r] eqn:Htry.
  - exists (catch_block e). unfold final.
    rewrite (handleTrigger_thrown _ _ _ _ Htry). cbn [result].
    split; [reflexivity|split; [discriminate|]].
    exact (prefix_app "❌ Error: " _).
  - exists r. unfold final. rewrite (handleTrigger_shown _ _ _ _ Htry).
    cbn [result]. split; [reflexivity|].
    destruct (try_block_shown _ _ Htry)
      as (resp & data & -> & Hbody & Hnull & Hs & Hp).
    split.
    + intros Hsucc. exists resp, data. rewrite <- Hs. auto.
    + now rewrite Hs.
Qed.

(** (X14) On a non-2xx answer whose body is an object, the failure shows
    the body's [error] when that is a non-empty string, and the fixed text
    "Failed to run pipeline" when [error] is absent or falsy. *)
Theorem X14_failure_message_comes_from_body secret (outcome : FetchOutcome num)
    st resp fields :
  outcome = Resolved resp ->
  ok resp = false ->
  json_body resp = inr (JObj fields) ->
  let final := finished (handleTrigger secret outcome st) in
  (forall m,
      lookup_field "error" fields = Some (JStr m) ->
      m <> "" ->
      result final = Some {| success := false; message := "❌ Error: " ++ m |})
  /\ (truthy_opt (lookup_field "error" fields) = false ->
      result final
      = Some {| success := false;
                message := "❌ Error: Failed to run pipeline" |}).
Proof.
  intros -> Hok Hbody final. split.
  - intros m Herr Hm. unfold final.
    rewrite (handleTrigger_shown secret _ st
               {| success := false; message := "❌ Error: " ++ m |});
      [reflexivity|].
    unfold try_block, and_then. rewrite Hbody, Hok. cbn [get]. rewrite Herr.
    cbn [or_else truthy].
    destruct (String.eqb_spec m "") as [->|_]; [contradiction|]. reflexivity.
  - intros Hfalsy. unfold final.
    rewrite (handleTrigger_shown secret _ st
               {| success := false;
                  message := "❌ Error: Failed to run pipeline" |});
      [reflexivity|].
    unfold try_block, and_then. rewrite Hbody, Hok. cbn [get].
    destruct (lookup_field "error" fields) as [v|]; cbn [or_else truthy_opt] in *.
    + now rewrite Hfalsy.
    + reflexivity.
Qed.

(** (X15) On a 2xx answer each count is taken by itself: a count that is
    there but falsy (0, [null], [false], the empty string) is shown as 0
    just like an absent one, whatever the other count is, and the run still
    reports success with the other count as it shows. *)
Theorem X15_falsy_counts_show_as_zero secret (outcome : FetchOutcome num) st
    resp data scraped processed :
  outcome = Resolved resp ->
  ok resp = true ->
  json_body resp = inr data ->
  get data "scraped" = inr scraped ->
  get data "processed" = inr processed ->
  let jobsScraped :=
    or_else (get_optional scraped "jobsScraped") (JNum num_zero) in
  let jobsProcessed :=
    or_else (get_optional processed "success") (JNum num_zero) in
  let final := finished (handleTrigger secret outcome st) in
  (truthy_opt (get_optional scraped "jobsScraped") = false ->
   forall shown_processed,
     to_string jobsProcessed = inr shown_processed ->
     result final
     = Some {| success := true;
               message := "✅ Success! " ++ num_to_string num_zero
                          ++ " jobs scraped, " ++ shown_processed
                          ++ " processed" |})
  /\ (truthy_opt (get_optional processed "success") = false ->
      forall shown_scraped,
        to_string jobsScraped = inr shown_scraped ->
        result final
        = Some {| success := true;
                  message := "✅ Success! " ++ shown_scraped
                             ++ " jobs scraped, " ++ num_to_string num_zero
                             ++ " processed" |}).
Proof.
  intros -> Hok Hbody Hs Hp js jp final.
  assert (Hz : forall v : option (json num),
             truthy_opt v = false -> or_else v (JNum num_zero) = JNum num_zero).
  { intros [j|] Hv; cbn in *; [now rewrite Hv|reflexivity]. }
  assert (Htry : forall a b,
             to_string js = inr a -> to_string jp = inr b ->
             result final
             = Some {| success := true;
                       message := "✅ Success! " ++ a ++ " jobs scraped, "
                                  ++ b ++ " processed" |}).
  { intros a b Ha Hb. unfold final.
    rewrite (handleTrigger_shown secret _ st
               {| success := true;
                  message := "✅ Success! " ++ a ++ " jobs scraped, "
                             ++ b ++ " processed" |});
      [reflexivity|].
    unfold try_block, and_then. rewrite Hbody, Hok, Hs, Hp.
    fold js jp. now rewrite Ha, Hb. }
  split.
  - intros Hfalsy b Hb. apply Htry; [|exact Hb].
    unfold js. now rewrite (Hz _ Hfalsy).
  - intros Hfalsy a Ha. apply Htry; [exact Ha|].
    unfold jp. now rewrite (Hz _ Hfalsy).
Qed.

(** (X16) The request of the callback is always a POST to the pipeline
    endpoint with a JSON content type; it carries an [Authorization] header
    exactly when a non-empty secret is configured, and then the header is
    the bearer form of that secret. *)
Theorem X16_authorization_only_with_secret secret (outcome : FetchOutcome num) st :
  let req := sent (handleTrigger secret outcome st) in
  url req = "/api/cron/run-pipeline"
  /\ method req = "POST"
  /\ In ("Content-Type", "application/json") (headers req)
  /\ (forall v,
         In ("Authorization", v) (headers req)
         <-> exists k, secret = Some k /\ k <> "" /\ v = "Bearer " ++ k).
Proof.
  intros req. split; [reflexivity|split; [reflexivity|split]].
  - left. reflexivity.
  - intros v. unfold req. cbn. split.
    + intros [Hc|Hin]; [discriminate|].
      destruct secret as [k|]; [|contradiction].
      destruct (String.eqb_spec k "") as [->|Hne]; [contradiction|].
      destruct Hin as [[= <-]|[]]. exists k. repeat split. exact Hne.
    + intros (k & -> & Hne & ->). right.
      destruct (String.eqb_spec k "") as [->|_]; [contradiction|].
      left. reflexivity.
Qed.

(** (X17) What the user sees around a run.  While the callback runs the
    button is disabled and relabelled, the waiting hint is shown and the
    result of an earlier run is gone; when it ends the button is enabled
    again, the hint is gone, and one box shows the message of the result,
    green when it says success and red when it does not. *)
Theorem X17_view_follows_the_run secret (outcome : FetchOutcome num) st :
  let during := render (started (handleTrigger secret outcome st)) in
  let after := render (finished (handleTrigger secret outcome st)) in
  button_disabled during = true
  /\ button_label during = "Running Pipeline..."
  /\ hint during <> None
  /\ result_box during = None
  /\ button_disabled after = false
  /\ button_label after = "Run Pipeline Now"
  /\ hint after = None
  /\ exists r,
      result (finished (handleTrigger secret outcome st)) = Some r
      /\ result_box after
         = Some (if success r then "bg-green-50 border-green-200 text-green-800"
                 else "bg-red-50 border-red-200 text-red-800",
                 message r).
Proof.
  intros during after. repeat split; try discriminate.
  eexists. split; reflexivity.
Qed.

End TriggerShows.

(** * The further properties at concrete runs *)

Section FurtherRuns.
Import Js Embeddings Runs.

Ltac answers :=
  unfold answers_with_status, answers_with_vector, answers_with_body;
  repeat eexists; reflexivity.

(** The provider down: the throw comes with the third request. *)
Lemma X2_witness :
  key_missing (JINA_API_KEY down) = false
  /\ fst (generateEmbedding down "rocq" fresh)
     = Thrown (ApiReturned 500 "oops 3")
  /\ exists w1 w2,
      In w1 (backoffs 1) /\ In w2 (backoffs 2)
      /\ snd (generateEmbedding down "rocq" fresh)
         = extend fresh [request down "rocq"; Slept w1;
                         request down "rocq"; Slept w2;
                         request down "rocq"]
      /\ fetch_count (trace (snd (generateEmbedding down "rocq" fresh)))
         = (3 + fetch_count (trace fresh))%nat.
Proof.
  split; [reflexivity|split; [reflexivity|]].
  exact (X2_throws_only_after_three_requests down "rocq" fresh
           (snd (generateEmbedding down "rocq" fresh))
           (ApiReturned 500 "oops 3") eq_refl eq_refl).
Defined.

(** Two rate limits and a vector: request, wait, request, wait, request. *)
Lemma X3_witness :
  key_missing (JINA_API_KEY limited_twice) = false
  /\ exists ws,
      possible_waits ws
      /\ snd (generateEmbedding limited_twice "rocq" fresh)
         = extend fresh (run_trace (request limited_twice "rocq") ws).
Proof.
  split; [reflexivity|].
  exact (proj1 (X3_requests_and_waits_alternate limited_twice "rocq" fresh
                  eq_refl)).
Defined.

(** Three [null] bodies: the engine's error comes out of the third attempt. *)
Lemma X4_witness :
  answers_with_body (net null_bodies (fetch_count (trace fresh))) JNull
  /\ generateEmbedding null_bodies "rocq" fresh
     = (Thrown (JsError "Cannot read properties of null (reading 'data')"),
        {| trace := [request null_bodies "rocq"; Slept 4000;
                     request null_bodies "rocq"; Slept 8000;
                     request null_bodies "rocq"];
           cachedUserSkillsEmbedding := None |}).
Proof.
  assert (H1 : answers_with_body
                 (net null_bodies (fetch_count (trace fresh))) JNull)
    by answers.
  split; [exact H1|].
  destruct (X4_null_body_throws_type_error null_bodies "rocq" fresh H1)
    as (_ & _ & _ & Hthree).
  refine (Hthree eq_refl _ _); answers.
Defined.

(** A 429 whose body cannot be read waits 4000 ms, not 10000 ms. *)
Lemma X5_witness :
  net cut_off_once (fetch_count (trace fresh))
  = Resolved {| status := 429; text := inl (JsError "terminated");
                json_body := inl (JsError "terminated") |}
  /\ for_loop cut_off_once "rocq" [1; 2; 3] fresh
     = for_loop cut_off_once "rocq" [2; 3]
         {| trace := [request cut_off_once "rocq"; Slept 4000];
            cachedUserSkillsEmbedding := None |}.
Proof.
  split; [reflexivity|].
  refine (proj1 (X5_unreadable_body_goes_to_handler cut_off_once "rocq" fresh
                   _ (JsError "terminated") eq_refl
                   (or_introl (conj eq_refl eq_refl))) 1 [2; 3] _).
  unfold maxRetries. lia.
Defined.

(** The provider down behind the accessor: nothing is cached. *)
Lemma X7_witness :
  fst (generateUserSkillsEmbedding skilled_down fresh)
  = Thrown (ApiReturned 500 "oops 3")
  /\ cachedUserSkillsEmbedding
       (snd (generateUserSkillsEmbedding skilled_down fresh)) = None
  /\ select_count (trace (snd (generateUserSkillsEmbedding skilled_down fresh)))
     = 1%nat.
Proof.
  split; [reflexivity|].
  exact (proj2 (X7_failure_is_not_cached skilled_down fresh
                  (snd (generateUserSkillsEmbedding skilled_down fresh))
                  (ApiReturned 500 "oops 3") eq_refl)).
Defined.

(** From an empty cache the first vector cached has 768 elements. *)
Lemma X8_witness :
  cache_dimension_ok fresh = true
  /\ cache_dimension_ok (snd (generateUserSkillsEmbedding skilled fresh)) = true.
Proof.
  split; [reflexivity|].
  exact (proj1 (X8_cache_keeps_dimension skilled fresh eq_refl)).
Defined.

(** Skills on record and no key: one query, then the missing-key error. *)
Lemma X10_witness :
  key_missing (JINA_API_KEY skilled_no_key) = true
  /\ generateUserSkillsEmbedding skilled_no_key fresh
     = (Thrown ApiKeyNotSet,
        {| trace := [Selected]; cachedUserSkillsEmbedding := None |}).
Proof.
  split; [reflexivity|].
  refine (X10_accessor_without_key skilled_no_key fresh {| skills := ["rocq"] |}
            eq_refl eq_refl _ eq_refl).
  discriminate.
Defined.

(** Two skills on record go out as one text. *)
Lemma X12_witness :
  store skilled (select_count (trace fresh)) = with_skills ["rocq"; "typescript"]
  /\ input (embedding_request skilled (String.concat ", " ["rocq"; "typescript"]))
     = ["rocq, typescript"]
  /\ exists ws,
      possible_waits ws
      /\ trace (snd (generateUserSkillsEmbedding skilled fresh))
         = ([] ++ Selected
               :: run_trace (request skilled "rocq, typescript") ws)%list.
Proof.
  split; [reflexivity|].
  refine (X12_accessor_embeds_joined_skills skilled fresh
            {| skills := ["rocq"; "typescript"] |} eq_refl eq_refl _ eq_refl).
  discriminate.
Defined.

(** A 401 with a reason shows the reason; a 500 without one the fixed text. *)
Lemma X14_witness :
  PipelineTrigger.result
    (PipelineTrigger.finished
       (PipelineTrigger.handleTrigger None pipeline_refused idle))
  = Some {| PipelineTrigger.success := false;
            PipelineTrigger.message := "❌ Error: Unauthorized" |}
  /\ PipelineTrigger.result
       (PipelineTrigger.finished
          (PipelineTrigger.handleTrigger None pipeline_broken idle))
     = Some {| PipelineTrigger.success := false;
               PipelineTrigger.message := "❌ Error: Failed to run pipeline" |}.
Proof.
  split.
  - refine (proj1 (X14_failure_message_comes_from_body None pipeline_refused idle
                     _ _ eq_refl eq_refl eq_refl) "Unauthorized" eq_refl _).
    discriminate.
  - exact (proj2 (X14_failure_message_comes_from_body None pipeline_broken idle
                    _ _ eq_refl eq_refl eq_refl) eq_refl).
Defined.

(** A count of 0 beside a count of 5, and counts of 0 and [null]. *)
Lemma X15_witness :
  PipelineTrigger.result
    (PipelineTrigger.finished
       (PipelineTrigger.handleTrigger None pipeline_partial idle))
  = Some {| PipelineTrigger.success := true;
            PipelineTrigger.message :=
              "✅ Success! 0 jobs scraped, 5 processed" |}
  /\ PipelineTrigger.result
       (PipelineTrigger.finished
          (PipelineTrigger.handleTrigger None pipeline_nothing idle))
     = Some {| PipelineTrigger.success := true;
               PipelineTrigger.message :=
                 "✅ Success! 0 jobs scraped, 0 processed" |}.
Proof.
  split.
  - exact (proj1 (X15_falsy_counts_show_as_zero None pipeline_partial idle
                    _ _ _ _ eq_refl eq_refl eq_refl eq_refl eq_refl)
             eq_refl "5" eq_refl).
  - exact (proj2 (X15_falsy_counts_show_as_zero None pipeline_nothing idle
                    _ _ _ _ eq_refl eq_refl eq_refl eq_refl eq_refl)
             eq_refl "0" eq_refl).
Defined.

End FurtherRuns.
